(** * FabMo-Engine: boot sequence, version gate, secret key, 404 routing
      and the dashboard's message relay.

    A shallow embedding of [engine.js] (the [Engine] object: [setTime],
    [getVersion], [start] with its list of stages run by [async.series],
    and the server's [NotFound] handler) and of
    [dashboard/static/js/dashboard.js] (the [Dashboard] object and its
    [message] listener).

    Conventions.
    - A JavaScript string is a [string]; every [ascii] stands for one code
      unit, so [String.length] is the JavaScript [length] (code units above
      U+00FF are outside the model).
    - Collaborators ([config], [db], [machine], [fs], [crypto], ...) are not
      part of the embedded files.  What they answer is read from a [World]
      record, what they are asked is appended to a trace of [Event]s.
    - A Node-style callback argument [err] is an [option Err]: [None] is a
      falsy first argument, [Some e] a truthy one. *)

From Stdlib Require Import ZArith List String Ascii Bool Lia.
From Stdlib Require Import Numbers.DecimalString.
From stdpp Require Import gmap strings.
Import ListNotations.

Local Open Scope Z_scope.
Local Open Scope string_scope.

(** ** JavaScript values, strings and numbers *)

Module JS.

(** The values the engine keeps in its configuration store. *)
Inductive jsval : Type :=
  | JStr (s : string)
  | JNum (n : Z)
  | JBool (b : bool).

#[global] Instance jsval_eq_dec : EqDecision jsval.
Proof. solve_decision. Defined.

(** [Number.prototype.toString] on an integer-valued number. *)
Definition string_of_Z (n : Z) : string :=
  NilZero.string_of_int (Z.to_int n).

(** [ToString] on a value; [undefined] is handled by the callers. *)
Definition to_string (v : jsval) : string :=
  match v with
  | JStr s => s
  | JNum n => string_of_Z n
  | JBool true => "true"
  | JBool false => "false"
  end.

(** [ToBoolean]: what [if(x)], [!x] and [x || y] look at.  [None] is
    [undefined]. *)
Definition truthy (v : option jsval) : bool :=
  match v with
  | None => false
  | Some (JStr s) => negb (String.eqb s "")
  | Some (JNum n) => negb (Z.eqb n 0)
  | Some (JBool b) => b
  end.

(** White space of [String.prototype.trim] among the code units below
    256: TAB, LF, VT, FF, CR, SP and NBSP. *)
Definition is_white_space (c : ascii) : bool :=
  let n := nat_of_ascii c in
  (Nat.leb 9 n && Nat.leb n 13) || Nat.eqb n 32 || Nat.eqb n 160.

Fixpoint trimStart (s : string) : string :=
  match s with
  | EmptyString => EmptyString
  | String c r => if is_white_space c then trimStart r else s
  end.

Fixpoint trimEnd (s : string) : string :=
  match s with
  | EmptyString => EmptyString
  | String c r =>
      let r' := trimEnd r in
      if is_white_space c && String.eqb r' "" then EmptyString
      else String c r'
  end.

(** [s.trim()] *)
Definition trim (s : string) : string := trimEnd (trimStart s).

(** [s.split(sep)] for a one-character separator: never the empty array. *)
Fixpoint split (sep : ascii) (s : string) : list string :=
  match s with
  | EmptyString => [EmptyString]
  | String c r =>
      if Ascii.eqb c sep then EmptyString :: split sep r
      else match split sep r with
           | h :: t => String c h :: t
           | [] => [String c EmptyString]
           end
  end.

(** [arr.join(sep)] on an array whose elements are values or [undefined]:
    [undefined] is rendered as the empty string. *)
Definition join_elem (v : option jsval) : string :=
  match v with
  | None => EmptyString
  | Some x => to_string x
  end.

Fixpoint join (sep : string) (arr : list (option jsval)) : string :=
  match arr with
  | [] => EmptyString
  | [x] => join_elem x
  | x :: rest => join_elem x ++ sep ++ join sep rest
  end.

(** [arr.splice(start, deleteCount, item)] with one inserted item, for
    [0 <= start]: a [start] beyond the end is clamped to the length. *)
Definition splice1 {A} (start deleteCount : nat) (item : A) (arr : list A)
  : list A :=
  firstn start arr ++ item :: skipn (start + deleteCount) arr.

(** *** Numbers in [0, 1)

    [Math.random()] returns a double [r] with [0 <= r < 1].  Such a double
    is [mant / 2^expo] for a mantissa of at most 53 bits and an exponent of
    at most 1074. *)
Record unit_double : Type := { mant : Z; expo : Z }.

Definition unit_double_ok (r : unit_double) : bool :=
  (0 <=? mant r)%Z && (mant r <? 2 ^ 53)%Z &&
  (0 <=? expo r)%Z && (expo r <=? 1074)%Z &&
  (mant r <? 2 ^ expo r)%Z.

(** Round [p] to a multiple of [2^k], to nearest, ties to even. *)
Definition round_nearest_even (p k : Z) : Z :=
  let q := p / 2 ^ k in
  let r := p mod 2 ^ k in
  if (2 * r <? 2 ^ k)%Z then q
  else if (2 * r =? 2 ^ k)%Z then (if Z.even q then q else q + 1)
  else q + 1.

(** [Math.floor(r * c)] for a positive integer constant [c]: the exact
    product [mant * c / 2^expo] is first rounded to 53 significant bits
    (the double multiplication), then floored. *)
Definition floor_mul (r : unit_double) (c : Z) : Z :=
  let p := mant r * c in
  let k := Z.max 0 (Z.log2 p + 1 - 53) in
  (round_nearest_even p k * 2 ^ k) / 2 ^ expo r.

(** [crypto.randomBytes(n).toString('hex')]: two lower-case digits per
    byte. *)
Definition hex_digit (n : N) : ascii :=
  if (n <? 10)%N then ascii_of_N (48 + n) else ascii_of_N (87 + n).

Definition hex_of_byte (b : Byte.byte) : string :=
  let n := Byte.to_N b in
  String (hex_digit (n / 16)) (String (hex_digit (n mod 16)) EmptyString).

Fixpoint hex (bs : list Byte.byte) : string :=
  match bs with
  | [] => EmptyString
  | b :: rest => hex_of_byte b ++ hex rest
  end.

Definition is_hex_digit (c : ascii) : bool :=
  let n := nat_of_ascii c in
  (Nat.leb 48 n && Nat.leb n 57) || (Nat.leb 97 n && Nat.leb n 102).

Fixpoint all_chars (p : ascii -> bool) (s : string) : bool :=
  match s with
  | EmptyString => true
  | String c r => p c && all_chars p r
  end.

(** [Math.floor] of the exact product of a number of [0, 1) with an
    integer constant: what [floor_mul] would give without the rounding of
    the double multiplication. *)
Definition exact_floor_mul (r : unit_double) (c : Z) : Z :=
  (mant r * c) / 2 ^ expo r.

(** The value of a hexadecimal digit, and [Buffer.from(s, 'hex')]: the
    bytes a string of lower-case hexadecimal digit pairs stands for. *)
Definition digit_value (c : ascii) : option N :=
  let n := N_of_ascii c in
  if ((48 <=? n) && (n <=? 57))%N then Some (n - 48)%N
  else if ((97 <=? n) && (n <=? 102))%N then Some (n - 87)%N
  else None.

Fixpoint unhex (s : string) : option (list Byte.byte) :=
  match s with
  | EmptyString => Some []
  | String _ EmptyString => None
  | String a (String b r) =>
      match digit_value a, digit_value b, unhex r with
      | Some x, Some y, Some bs =>
          match Byte.of_N (16 * x + y) with
          | Some byte => Some (byte :: bs)
          | None => None
          end
      | _, _, _ => None
      end
  end.

End JS.

(** ** engine.js *)

Module Engine.
Import JS.

(** A truthy error object handed to a callback. *)
Definition Err : Type := string.

(** The version object built by [getVersion]; [vtype] stays [undefined]
    when [version.json] parses but carries no number. *)
Record Version : Type := {
  hash : string;
  number : string;
  debug : bool;
  vtype : option string
}.

Record Firmware : Type := {
  fw_build : option string;
  fw_config : option string;
  fw_version : option string
}.

(** [machine.machine]: the handle the [machine] module exports after
    [machine.connect]; only [isConnected()] is read by the engine. *)
Record Machine : Type := { isConnected : bool }.

(** The restify server as [start_server] assembles it. *)
Record Server : Type := {
  server_name : string;
  middleware : list string;     (* server.use, in order *)
  pre : list string;            (* server.pre *)
  on : list string;             (* server.on *)
  cookieSecret : option string
}.

(** [var Engine = function() {...}] *)
Record Engine : Type := {
  version : option Version;
  time_synced : bool;
  firmware : Firmware;
  machine : option Machine;
  auth_secret : option string;
  server : option Server
}.

Definition new_Engine : Engine :=
  {| version := None;
     time_synced := false;
     firmware := {| fw_build := None; fw_config := None; fw_version := None |};
     machine := None;
     auth_secret := None;
     server := None |}.

(** What the engine asks of its collaborators, in the order it asks.
    [log.info] and [log.debug] lines are left out; [log.warn], [log.error]
    and [log.stack] are kept. *)
Inductive Event : Type :=
  | LogWarn (msg : string)
  | LogError (msg : string)
  | LogStack
  | Shell (cmd : string)
  | CreateDataDirectories
  | ConfigureEngine
  | EngineConfigSet (key : string) (v : jsval)
  | EngineConfigUpdate (ports : list (string * jsval))
  | EngineConfigApply
  | Glob (pattern : string)
  | ProfilesLoad
  | ConfigureUser
  | ReadFile (path : string)
  | WriteFile (path : string) (data : string)
  | ClearAppRoot
  | ConfigureDB
  | DbCleanup
  | MachineConnect
  | DetectionDaemon
  | ConfigureMachine
  | DriverSetUnits (units : option jsval)
  | ConfigureDriver (driver_given : bool)
  | DriverGet (keys : list string)
  | DriverConfigDeleteMany (entries : list string)
  | DriverConfigRestore
  | SbpLoadCommands
  | ConfigureOpenSBP
  | MachineConfigApply
  | DashboardConfigure
  | DashboardLoadApps
  | MacrosLoad
  | ConfigureInstance
  | InstanceConfigApply
  | RandomBytes (n : nat)
  | SocketIoListen
  | LoadRoutes
  | ServerListen (port : option jsval)
  | AuthenticationConfigure.

(** The calls that reach the motion hardware: the ones made on
    [machine.driver] or [machine.sbp_runtime], and the [config] calls that
    are handed the driver. *)
Definition is_hardware_call (e : Event) : bool :=
  match e with
  | DriverSetUnits _ | DriverGet _ | ConfigureDriver true
  | SbpLoadCommands | ConfigureInstance => true
  | _ => false
  end.


Definition is_WriteFile (e : Event) : bool :=
  match e with WriteFile _ _ => true | _ => false end.

Definition is_Shell (e : Event) : bool :=
  match e with Shell _ => true | _ => false end.

Definition count (p : Event -> bool) (t : list Event) : nat :=
  length (List.filter p t).

(** The process state a stage reads and writes. *)
Record Sys : Type := {
  engine : Engine;
  engine_config : gmap string jsval;   (* config.engine, as persisted *)
  files : gmap string string;          (* the disk, as fs sees it *)
  trace : list Event
}.

Definition with_engine (e : Engine) (s : Sys) : Sys :=
  {| engine := e; engine_config := engine_config s;
     files := files s; trace := trace s |}.

Definition with_engine_config (c : gmap string jsval) (s : Sys) : Sys :=
  {| engine := engine s; engine_config := c;
     files := files s; trace := trace s |}.

Definition with_files (f : gmap string string) (s : Sys) : Sys :=
  {| engine := engine s; engine_config := engine_config s;
     files := f; trace := trace s |}.

Definition emit (e : Event) (s : Sys) : Sys :=
  {| engine := engine s; engine_config := engine_config s;
     files := files s; trace := trace s ++ [e] |}.

(** [config.engine.get(key)] *)
Definition config_get (key : string) (s : Sys) : option jsval :=
  engine_config s !! key.

(** [config.engine.set(key, value)] *)
Definition config_set (key : string) (v : jsval) (s : Sys) : Sys :=
  emit (EngineConfigSet key v)
       (with_engine_config (<[key := v]> (engine_config s)) s).

(** [config.engine.update(data, cb)]: every key of [data] is stored. *)
Definition config_update (data : list (string * jsval)) (s : Sys) : Sys :=
  emit (EngineConfigUpdate data)
       (with_engine_config
          (fold_left (fun m kv => <[fst kv := snd kv]> m) data (engine_config s))
          s).

(** [JSON.parse] on the content of [version.json], as far as [getVersion]
    looks at it. *)
Inductive VersionJson : Type :=
  | Malformed                          (* JSON.parse throws, or no object *)
  | Parsed (number : option string).   (* data.number, when truthy *)

(** What the outside answers.  An [option Err] field is the first argument
    a collaborator hands to the callback at one call site of [start];
    [configureDriver_null_calls_back] tells whether
    [config.configureDriver(null, cb)] invokes [cb] at all. *)
Record World : Type := {
  PLATFORM : string;
  argv : gmap string jsval;
  getDataDir : string;
  read_fails : string -> option Err;        (* fs.readFile errors *)
  write_fails : string -> option Err;       (* fs.writeFile errors *)
  JSON_parse : string -> VersionJson;
  git_rev_parse : option string;            (* doshell's data *)
  Math_random : unit_double;
  randomBytes : nat -> list Byte.byte;
  glob_files : list string;
  machine_machine : Machine;
  machine_units : option jsval;             (* config.machine.get('units') *)
  driver_has : string -> bool;              (* config.driver.has *)
  createDataDirectories_1 : option Err;
  configureEngine : option Err;
  profiles_load : option Err;
  set_profile : option Err;
  clearAppRoot : option Err;
  createDataDirectories_2 : option Err;
  engine_apply : option Err;
  configureDB : option Err;
  db_cleanup : option Err;
  machine_connect : option Err;
  configureMachine : option Err;
  setUnits : option Err;
  configureDriver : option Err;
  configureDriver_null_calls_back : bool;
  driver_get : Err + list string;
  loadCommands : option Err;
  configureOpenSBP : option Err;
  machine_apply : option Err;
  dashboard_configure : option Err;
  macros_load : option Err;
  configureInstance : option Err;
  instance_apply : option Err
}.

(** What one stage did: the state it leaves, the invocations of its
    completion callback (their first argument, in order), and whether it
    threw instead of returning. *)
Record StageRun : Type := {
  after : Sys;
  calls : list (option Err);
  threw : bool
}.

Definition callback (err : option Err) (s : Sys) : StageRun :=
  {| after := s; calls := [err]; threw := false |}.

Definition throw (s : Sys) : StageRun :=
  {| after := s; calls := []; threw := true |}.

Definition Stage : Type := Sys -> StageRun.

(** [fs.readFile(path, 'utf8', cb)] *)
Definition readFile (w : World) (path : string) (s : Sys)
  : Sys * (Err + string) :=
  let s := emit (ReadFile path) s in
  match read_fails w path with
  | Some e => (s, inl e)
  | None =>
      match files s !! path with
      | Some data => (s, inr data)
      | None => (s, inl "ENOENT")
      end
  end.

(** [fs.writeFile(path, data, cb)] *)
Definition writeFile (w : World) (path data : string) (s : Sys)
  : Sys * option Err :=
  let s := emit (WriteFile path data) s in
  match write_fails w path with
  | Some e => (s, Some e)
  | None => (with_files (<[path := data]> (files s)) s, None)
  end.

(** *** [Engine.prototype.setTime] *)

(** [new Date(obj.utc)] as [setTime] reads it: the UTC getters of a valid
    date ([getUTCMonth] counts from 0, [getUTCDay] is the day of the week),
    or an invalid date, whose getters all answer [NaN]. *)
Inductive Date : Type :=
  | ValidDate (getUTCFullYear getUTCMonth getUTCDay
               getUTCHours getUTCMinutes getUTCSeconds : Z)
  | InvalidDate.

Definition date_string (d : Date) : string :=
  match d with
  | ValidDate y mo dy h mi sec =>
      string_of_Z y ++ "-" ++ string_of_Z mo ++ "-" ++ string_of_Z dy ++ " " ++
      string_of_Z h ++ ":" ++ string_of_Z mi ++ ":" ++ string_of_Z sec
  | InvalidDate => "NaN-NaN-NaN NaN:NaN:NaN"
  end.

Definition set_time_synced (b : bool) (e : Engine) : Engine :=
  {| version := version e; time_synced := b; firmware := firmware e;
     machine := machine e; auth_secret := auth_secret e; server := server e |}.

Definition setTime (d : Date) (s : Sys) : Sys :=
  if negb (time_synced (engine s)) then
    let s := with_engine (set_time_synced true (engine s)) s in
    let t := date_string d in
    let cmd := "timedatectl set-time " ++ t ++ "; timedatectl" in
    emit (Shell cmd) s
  else s.

(** *** The 404 handler installed by [start_server] *)

Inductive Response : Type :=
  | Redirect (location : string)
  | Status (code : Z).          (* a bare status reply; never built below *)

(** [url_arr[1] !== current_hash] *)
Definition strict_ne (seg : option string) (current : option jsval) : bool :=
  match seg, current with
  | None, None => false
  | Some a, Some (JStr b) => negb (String.eqb a b)
  | _, _ => true
  end.

Definition NotFound (cfg : gmap string jsval) (url : string) : Response :=
  let current_hash := cfg !! "version" in
  let url_arr := split "/" url in
  if strict_ne (nth_error url_arr 1) current_hash then
    let url_arr' := splice1 1 1 current_hash (map (fun x => Some (JStr x)) url_arr) in
    let newPath := join "/" url_arr' in
    Redirect newPath
  else
    Redirect "/".

(** *** The stages of [Engine.prototype.start] *)

Definition set_version (v : option Version) (e : Engine) : Engine :=
  {| version := v; time_synced := time_synced e; firmware := firmware e;
     machine := machine e; auth_secret := auth_secret e; server := server e |}.

Definition set_firmware (f : Firmware) (e : Engine) : Engine :=
  {| version := version e; time_synced := time_synced e; firmware := f;
     machine := machine e; auth_secret := auth_secret e; server := server e |}.

Definition set_machine (m : option Machine) (e : Engine) : Engine :=
  {| version := version e; time_synced := time_synced e; firmware := firmware e;
     machine := m; auth_secret := auth_secret e; server := server e |}.

Definition set_auth_secret (k : option string) (e : Engine) : Engine :=
  {| version := version e; time_synced := time_synced e; firmware := firmware e;
     machine := machine e; auth_secret := k; server := server e |}.

Definition set_server (sv : option Server) (e : Engine) : Engine :=
  {| version := version e; time_synced := time_synced e; firmware := firmware e;
     machine := machine e; auth_secret := auth_secret e; server := sv |}.

(** [if(err) log.error(err)] and the like. *)
Definition log_if (err : option Err) (ev : Err -> Event) (s : Sys) : Sys :=
  match err with
  | Some e => emit (ev e) s
  | None => s
  end.

(** [a || b] on strings. *)
Definition str_or (a b : string) : string :=
  if String.eqb a "" then b else a.

Section Boot.

Variable w : World.

(** ['debug' in argv] *)
Definition debug_in_argv : bool :=
  match argv w !! "debug" with Some _ => true | None => false end.

Definition EngineConfigFirstTime (s : Sys) : Sys :=
  if String.eqb (PLATFORM w) "linux" then
    let ports := [("control_port_linux", JStr "/dev/ttyACM0");
                  ("data_port_linux", JStr "/dev/ttyACM0")] in
    config_update ports s
  else if String.eqb (PLATFORM w) "darwin" then
    let s := config_set "server_port" (JNum 9876) s in
    let s := emit (Glob "/dev/cu.usbmodem*") s in
    match glob_files w with
    | f0 :: rest =>
        let f1 := match rest with
                  | f1 :: _ => str_or f1 f0
                  | [] => f0
                  end in
        let ports := [("control_port_osx", JStr f0);
                      ("data_port_osx", JStr f1)] in
        config_update ports s
    | [] => s
    end
  else s.

Definition getVersion (s : Sys) : Sys * Version :=
  let s := emit (Shell "git rev-parse --verify HEAD") s in
  let data := match git_rev_parse w with Some d => d | None => "" end in
  let h := trim data in
  let dbg := debug_in_argv in
  let (s, r) := readFile w "version.json" s in
  let v :=
    match r with
    | inl _ =>
        {| hash := h; number := ""; debug := dbg; vtype := Some "dev" |}
    | inr data =>
        match JSON_parse w data with
        | Parsed (Some n) =>
            {| hash := h; number := n; debug := dbg; vtype := Some "release" |}
        | Parsed None =>
            {| hash := h; number := ""; debug := dbg; vtype := None |}
        | Malformed =>
            {| hash := h; number := ""; debug := dbg; vtype := Some "dev" |}
        end
    end in
  (s, v).

Definition setup_application : Stage := fun s =>
  let s := emit CreateDataDirectories s in
  callback (createDataDirectories_1 w) s.

Definition load_engine_config : Stage := fun s =>
  let s := emit ConfigureEngine s in
  callback (configureEngine w) s.

Definition check_engine_config : Stage := fun s =>
  if negb (truthy (config_get "init" s)) then
    let s := EngineConfigFirstTime s in
    let s := config_set "init" (JBool true) s in
    callback None s
  else
    callback None s.

Definition load_profiles : Stage := fun s =>
  let s := emit ProfilesLoad s in
  let s := log_if (profiles_load w) LogError s in
  callback None s.

Definition load_users : Stage := fun s =>
  let s := emit ConfigureUser s in
  callback None s.

Definition profile_shim : Stage := fun s =>
  let profile := config_get "profile" s in
  if truthy profile then
    callback None s
  else
    let (s, r) := readFile w "../site/.default" s in
    let def := match r with
               | inl _ => "Default"
               | inr content => content
               end in
    let s := config_set "profile" (JStr def) s in
    callback (set_profile w) s.

Definition get_fabmo_version : Stage := fun s =>
  let (s, data) := getVersion s in
  let s := with_engine (set_version (Some data) (engine s)) s in
  callback None s.

(** [(config.engine.get('version') || '')], on which [.trim()] is then
    called: a truthy value that is no string has no [trim]. *)
Definition or_empty (v : option jsval) : option string :=
  match v with
  | Some (JStr x) => Some x
  | Some other => if truthy (Some other) then None else Some ""
  | None => Some ""
  end.

Definition clear_approot : Stage := fun s =>
  if debug_in_argv then
    let random := floor_mul (Math_random w) (99999 - 10000) + 10000 in
    let s := config_set "version" (JStr (string_of_Z random)) s in
    let s := emit ClearAppRoot s in
    let s := log_if (clearAppRoot w) LogError s in
    let s := config_set "version" (JStr (string_of_Z random)) s in
    callback None s
  else
    match or_empty (config_get "version" s) with
    | None => throw s
    | Some last =>
        let last_time_version := trim last in
        match version (engine s) with
        | None => throw s
        | Some v =>
            let this_time_version :=
              trim (str_or (hash v) (str_or (number v) "")) in
            if negb (String.eqb last_time_version this_time_version) then
              let s := emit ClearAppRoot s in
              let s := config_set "version" (JStr this_time_version) s in
              let s := log_if (clearAppRoot w) LogError s in
              callback None s
            else
              callback None s
        end
    end.

Definition create_data_directories : Stage := fun s =>
  let s := emit CreateDataDirectories s in
  callback (createDataDirectories_2 w) s.

Definition apply_engine_config : Stage := fun s =>
  let s := emit EngineConfigApply s in
  callback (engine_apply w) s.

Definition setup_database : Stage := fun s =>
  let s := emit ConfigureDB s in
  callback (configureDB w) s.

Definition clean_database : Stage := fun s =>
  let s := emit DbCleanup s in
  callback (db_cleanup w) s.

Definition connect : Stage := fun s =>
  let s := emit MachineConnect s in
  let s := match machine_connect w with
           | Some e =>
               let s := emit (LogError "!!!!!!!!!!!!!!!!!!!!!!!!") s in
               let s := emit (LogError "Could not connect to G2.") s in
               let s := emit (LogError ("(" ++ e ++ ")")) s in
               emit (LogError "!!!!!!!!!!!!!!!!!!!!!!!!") s
           | None => s
           end in
  callback None s.

Definition launch_detection_daemon : Stage := fun s =>
  let s := emit DetectionDaemon s in
  callback None s.

Definition load_machine_config : Stage := fun s =>
  let s := with_engine (set_machine (Some (machine_machine w)) (engine s)) s in
  let s := emit ConfigureMachine s in
  let s := log_if (configureMachine w) LogWarn s in
  callback None s.

(** [this.machine.isConnected()]; [None] when [this.machine] is not set,
    where the call throws. *)
Definition machine_isConnected (s : Sys) : option bool :=
  match machine (engine s) with
  | Some m => Some (isConnected m)
  | None => None
  end.

Definition set_units : Stage := fun s =>
  match machine_isConnected s with
  | None => throw s
  | Some true =>
      let s := emit (DriverSetUnits (machine_units w)) s in
      callback (setUnits w) s
  | Some false =>
      callback None s
  end.

Definition load_driver_config : Stage := fun s =>
  match machine_isConnected s with
  | None => throw s
  | Some true =>
      let s := emit (ConfigureDriver true) s in
      let s := log_if (configureDriver w)
                 (fun _ => LogError "There were problems loading the G2 configuration.") s in
      callback None s
  | Some false =>
      let s := emit (LogWarn "Skipping G2 configuration due to no connection.") s in
      let s := emit (ConfigureDriver false) s in
      (* the function handed to configureDriver calls [callback(null)];
         the stage then calls [callback(null)] itself *)
      let from_collaborator :=
        if configureDriver_null_calls_back w then [None] else [] in
      {| after := s; calls := from_collaborator ++ [None]; threw := false |}
  end.

Definition get_g2_version : Stage := fun s =>
  match machine_isConnected s with
  | None => throw s
  | Some true =>
      let s := emit (DriverGet ["fb"; "fbs"; "fbc"]) s in
      match driver_get w with
      | inl e =>
          let s := emit (LogError ("Could not get the G2 firmware build. (" ++ e ++ ")")) s in
          callback None s
      | inr value =>
          let fw := {| fw_build := nth_error value 0;
                       fw_version := nth_error value 1;
                       fw_config := nth_error value 2 |} in
          let s := with_engine (set_firmware fw (engine s)) s in
          callback None s
      end
  | Some false =>
      let s := emit (LogWarn "Skipping G2 firmware version check due to no connection.") s in
      callback None s
  end.

Definition g2_shim_entries : list string :=
  ["1sa"; "1tr"; "1mi";
   "2sa"; "2tr"; "2mi";
   "3sa"; "3tr"; "3mi";
   "4sa"; "4tr"; "4mi";
   "5sa"; "5tr"; "5mi";
   "6sa"; "6tr"; "6mi";
   "ja";
   "6ma";
   "6po";
   "6su";
   "6pm";
   "6pl"].

Definition g2_shim : Stage := fun s =>
  let entries := g2_shim_entries in
  let do_shim := existsb (driver_has w) entries in
  if do_shim then
    let s := emit (DriverConfigDeleteMany entries) s in
    let s := emit DriverConfigRestore s in
    callback None s
  else
    callback None s.

Definition load_opensbp_commands : Stage := fun s =>
  match machine_isConnected s with
  | None => throw s
  | Some false =>
      let s := emit (LogWarn "Not loading SBP Commands due to no connection to motion system.") s in
      callback None s
  | Some true =>
      let s := emit SbpLoadCommands s in
      callback (loadCommands w) s
  end.

Definition load_opensbp_config : Stage := fun s =>
  match machine_isConnected s with
  | None => throw s
  | Some false =>
      let s := emit (LogWarn "Not configuring SBP due to no connection to motion system.") s in
      callback None s
  | Some true =>
      let s := emit ConfigureOpenSBP s in
      callback (configureOpenSBP w) s
  end.

Definition apply_machine_config : Stage := fun s =>
  let s := emit MachineConfigApply s in
  callback (machine_apply w) s.

Definition configure_dashboard : Stage := fun s =>
  let s := emit DashboardConfigure s in
  callback (dashboard_configure w) s.

Definition load_apps : Stage := fun s =>
  let s := emit DashboardLoadApps s in
  callback None s.

Definition load_macros : Stage := fun s =>
  let s := emit MacrosLoad s in
  callback (macros_load w) s.

Definition load_instance_config : Stage := fun s =>
  match machine_isConnected s with
  | None => throw s
  | Some false =>
      let s := emit (LogWarn "Not configuring instance due to no connection to motion system.") s in
      callback None s
  | Some true =>
      let s := emit ConfigureInstance s in
      callback (configureInstance w) s
  end.

Definition apply_instance_config : Stage := fun s =>
  match machine_isConnected s with
  | None => throw s
  | Some false =>
      let s := emit (LogWarn "Not applying instance config due to no connection to motion system.") s in
      callback None s
  | Some true =>
      let s := emit InstanceConfigApply s in
      callback (instance_apply w) s
  end.

Definition secret_file : string := getDataDir w ++ "/config/auth_secret".

Definition generate_auth_key : Stage := fun s =>
  let (s, r) := readFile w secret_file s in
  let reuse :=
    match r with
    | inr data =>
        if negb (String.eqb data "") && Nat.eqb (String.length data) 512
        then Some data else None
    | inl _ => None
    end in
  match reuse with
  | Some data =>
      let s := with_engine (set_auth_secret (Some data) (engine s)) s in
      callback None s
  | None =>
      let s := emit (RandomBytes 256) s in
      let key := hex (randomBytes w 256) in
      let s := with_engine (set_auth_secret (Some key) (engine s)) s in
      let (s, _) := writeFile w secret_file key s in
      callback None s
  end.

Definition start_server : Stage := fun s =>
  let mw :=
    (["crossOrigin"] ++
     (if debug_in_argv && bool_decide (argv w !! "debug" = Some (JStr "slow"))
      then ["latency"] else []) ++
     (if debug_in_argv then ["debug"] else []) ++
     ["queryParser"; "bodyParser"])%list in
  let sv := {| server_name := "FabMo Engine"; middleware := mw;
               pre := ["sanitizePath"];
               on := ["NotFound"; "uncaughtException"];
               cookieSecret := None |} in
  let s := with_engine (set_server (Some sv) (engine s)) s in
  let s :=
    if debug_in_argv && bool_decide (argv w !! "debug" = Some (JStr "slow"))
    then emit (LogWarn "Configuring deliberate latency for testing...") s
    else s in
  match auth_secret (engine s) with
  | None => throw s          (* this.auth_secret.slice on undefined *)
  | Some key =>
      let mw := (mw ++ ["sessions"; "passport.initialize"; "passport.session";
                        "gzipResponse"])%list in
      let sv := {| server_name := "FabMo Engine"; middleware := mw;
                   pre := ["sanitizePath"];
                   on := ["NotFound"; "uncaughtException"];
                   cookieSecret := Some key |} in
      let s := with_engine (set_server (Some sv) (engine s)) s in
      let s := emit SocketIoListen s in
      let s := emit LoadRoutes s in
      let s := emit (ServerListen (config_get "server_port" s)) s in
      let s := emit AuthenticationConfigure s in
      callback None s
  end.

(** The array handed to [async.series], each function under its own
    name. *)
Definition stages : list (string * Stage) :=
  [("setup_application", setup_application);
   ("load_engine_config", load_engine_config);
   ("check_engine_config", check_engine_config);
   ("load_profiles", load_profiles);
   ("load_users", load_users);
   ("profile_shim", profile_shim);
   ("get_fabmo_version", get_fabmo_version);
   ("clear_approot", clear_approot);
   ("create_data_directories", create_data_directories);
   ("apply_engine_config", apply_engine_config);
   ("setup_database", setup_database);
   ("clean_database", clean_database);
   ("connect", connect);
   ("launch_detection_daemon", launch_detection_daemon);
   ("load_machine_config", load_machine_config);
   ("set_units", set_units);
   ("load_driver_config", load_driver_config);
   ("get_g2_version", get_g2_version);
   ("g2_shim", g2_shim);
   ("load_opensbp_commands", load_opensbp_commands);
   ("load_opensbp_config", load_opensbp_config);
   ("apply_machine_config", apply_machine_config);
   ("configure_dashboard", configure_dashboard);
   ("load_apps", load_apps);
   ("load_macros", load_macros);
   ("load_instance_config", load_instance_config);
   ("apply_instance_config", apply_instance_config);
   ("generate_auth_key", generate_auth_key);
   ("start_server", start_server)].

(** *** [async.series] and [Engine.prototype.start]

    [async.series(tasks, final)] runs the tasks one after the other; a task
    is over when it invokes the callback it was given.  A truthy first
    argument ends the series: no further task is run and [final] receives
    that error.  When the last task has called back, [final] is invoked
    without an error.  A task that never calls back leaves the series
    stalled, and a task that throws takes the series down with it.

    A task must call back once.  What [async] makes of a second invocation
    depends on its version, which these sources do not fix.  The model
    follows [async] 2 and 3, where the callback is wrapped so that the
    second invocation throws ['Callback was already called.']: the first
    invocation is served (an error goes to [final]), no further task is
    started, and the series is over with the exception.  ([async] 0.9 has
    no such wrapper and starts the next task a second time; there the
    order of the stages is lost.) *)
Inductive SeriesEnd : Type :=
  | Finished (err : option Err)
  | Stalled
  | Crashed
  | CalledTwice (first : option Err).

Record SeriesRun : Type := {
  final : Sys;
  ran : list string;          (* the names of the stages started, in order *)
  ending : SeriesEnd
}.

Fixpoint series (tasks : list (string * Stage)) (s : Sys) : SeriesRun :=
  match tasks with
  | [] => {| final := s; ran := []; ending := Finished None |}
  | (name, f) :: rest =>
      let r := f s in
      if threw r then
        {| final := after r; ran := [name]; ending := Crashed |}
      else
        match calls r with
        | [] => {| final := after r; ran := [name]; ending := Stalled |}
        | [Some e] =>
            {| final := after r; ran := [name]; ending := Finished (Some e) |}
        | [None] =>
            let r' := series rest (after r) in
            {| final := final r'; ran := name :: ran r'; ending := ending r' |}
        | first :: _ :: _ =>
            {| final := after r; ran := [name]; ending := CalledTwice first |}
        end
  end.

(** One invocation of the callback given to [start]: [callback(err)] or
    [callback(null, this)]. *)
Inductive TermCall : Type :=
  | TErr (err : Err)
  | TOk (this : Engine).

Record StartRun : Type := {
  boot : SeriesRun;
  end_state : Sys;
  terminal : list TermCall
}.

(** [callback_is_function] is [typeof callback === 'function']. *)
Definition start (callback_is_function : bool) (s : Sys) : StartRun :=
  let r := series stages s in
  match ending r with
  | Finished (Some err) | CalledTwice (Some err) =>
      let s' := emit LogStack (final r) in
      let s' := emit (LogError err) s' in
      {| boot := r; end_state := s';
         terminal := if callback_is_function then [TErr err] else [] |}
  | Finished None =>
      {| boot := r; end_state := final r;
         terminal := if callback_is_function
                     then [TOk (engine (final r))] else [] |}
  | Stalled | Crashed | CalledTwice None =>
      {| boot := r; end_state := final r; terminal := [] |}
  end.

End Boot.

(** *** Vocabulary for the statements below *)

(** A URL segment: a string without a slash. *)
Definition no_slash (x : string) : Prop :=
  all_chars (fun c => negb (Ascii.eqb c "/")) x = true.

(** The URL whose segments, in order, are [segs]. *)
Definition path_of (segs : list string) : string :=
  join "/" (map (fun x => Some (JStr x)) segs).

(** The state reached when every task of [tasks], run in order from [s],
    succeeds: it returns and calls back exactly once, without an error. *)
Fixpoint succeed_all (tasks : list (string * Stage)) (s : Sys) : option Sys :=
  match tasks with
  | [] => Some s
  | (_, f) :: rest =>
      let r := f s in
      if threw r then None
      else match calls r with
           | [None] => succeed_all rest (after r)
           | _ => None
           end
  end.

(** What [fs.readFile] finds at the secret's path. *)
Definition secret_on_disk (w : World) (s : Sys) : option string :=
  match read_fails w (secret_file w) with
  | Some _ => None
  | None => files s !! secret_file w
  end.

(** The build identity [clear_approot] compares with: the hash, else the
    number, trimmed. *)
Definition build_identity (v : Version) : string :=
  trim (str_or (hash v) (str_or (number v) "")).

(** The stages the spec lists as gated on the hardware connection. *)
Definition gated_stages : list string :=
  ["set_units"; "load_driver_config"; "get_g2_version";
   "load_opensbp_commands"].

(** No hardware call so far, and [this.machine] is unset or is the handle
    of the [machine] module. *)
Definition offline (w : World) (s : Sys) : Prop :=
  count is_hardware_call (trace s) = 0%nat /\
  (machine (engine s) = None \/ machine (engine s) = Some (machine_machine w)).

(** The collaborators whose error is passed on to [async.series] by a
    stage that runs whether or not the hardware is connected all report
    success. *)
Definition others_succeed (w : World) : Prop :=
  createDataDirectories_1 w = None /\ configureEngine w = None /\
  set_profile w = None /\ createDataDirectories_2 w = None /\
  engine_apply w = None /\ configureDB w = None /\ db_cleanup w = None /\
  machine_apply w = None /\ dashboard_configure w = None /\
  macros_load w = None.

(** What the [i]-th stage (counted from 0) finds when the stages before it
    have run: the stored version can be trimmed until [clear_approot] has
    run, [this.version] is set from [get_fabmo_version] on, [this.machine]
    from [load_machine_config] on, and [this.auth_secret] from
    [generate_auth_key] on. *)
Definition ready (w : World) (i : nat) (s : Sys) : Prop :=
  ((i <= 7)%nat -> or_empty (config_get "version" s) <> None) /\
  ((7 <= i)%nat -> version (engine s) <> None) /\
  ((15 <= i)%nat -> machine (engine s) = Some (machine_machine w)) /\
  ((28 <= i)%nat -> auth_secret (engine s) <> None).

(** The state after each of a sequence of [setTime] calls. *)
Fixpoint setTime_all (ds : list Date) (s : Sys) : list Sys :=
  match ds with
  | [] => []
  | d :: rest => let s' := setTime d s in s' :: setTime_all rest s'
  end.

(** How often a flag goes from [false] to [true] along a sequence. *)
Fixpoint rises (prev : bool) (l : list bool) : nat :=
  match l with
  | [] => 0
  | b :: rest => ((if negb prev && b then 1 else 0) + rises b rest)%nat
  end.

End Engine.

(** ** dashboard/static/js/dashboard.js *)

Module Dashboard.
Import JS.

(** The machine handle is an object of the client library; the dashboard
    reads its properties by name. *)
Definition Handle : Type := gmap string jsval.

(** [this.ui]: the two things the dashboard reads from it. *)
Record UI : Type := {
  statusKeypad : bool;
  tool_state : option string
}.

(** An embedded frame, as [e.source] identifies it. *)
Definition Frame : Type := nat.

(** An object literal: its own properties, each a value or [undefined]. *)
Definition Obj : Type := gmap string (option jsval).

Inductive Event : Type :=
  | ConsoleLog (msg : string)
  | SetMenuOpen                          (* this.ui.setMenuOpen() *)
  | SetMenuClosed                        (* this.ui.setMenuClosed() *)
  | ResizeDoc                            (* resizedoc() *)
  | AddJob (job : jsval)                 (* this.machine.add_job(job, cb) *)
  | LaunchApp (id : string)              (* context.launchApp(id) *)
  | PostMessage (target : Frame) (msg : Obj) (targetOrigin : string)
  | Toastr (type message : string).

Definition is_PostMessage (e : Event) : bool :=
  match e with PostMessage _ _ _ => true | _ => false end.

(** The [Dashboard] singleton, the class list of [$("#main")], and what
    the dashboard did to the outside. *)
Record Dashboard : Type := {
  machine : option Handle;
  ui : option UI;
  refresh : Z;
  main_classes : list string;
  trace : list Event
}.

(** [new Dashboard()] on a page whose [#main] carries [classes]. *)
Definition new_Dashboard (classes : list string) : Dashboard :=
  {| machine := None; ui := None; refresh := 500;
     main_classes := classes; trace := [] |}.

Definition emit (e : Event) (d : Dashboard) : Dashboard :=
  {| machine := machine d; ui := ui d; refresh := refresh d;
     main_classes := main_classes d; trace := trace d ++ [e] |}.

Definition with_main_classes (c : list string) (d : Dashboard) : Dashboard :=
  {| machine := machine d; ui := ui d; refresh := refresh d;
     main_classes := c; trace := trace d |}.

(** jQuery's [hasClass], [addClass] and [removeClass] on [#main]. *)
Definition hasClass (c : string) (d : Dashboard) : bool :=
  existsb (String.eqb c) (main_classes d).

Definition addClass (c : string) (d : Dashboard) : Dashboard :=
  if hasClass c d then d
  else with_main_classes (main_classes d ++ [c]) d.

Definition removeClass (c : string) (d : Dashboard) : Dashboard :=
  with_main_classes
    (List.filter (fun x => negb (String.eqb c x)) (main_classes d)) d.

(** What a method did: the dashboard it leaves and whether it threw. *)
Record Run : Type := { result : Dashboard; thrown : bool }.

Definition ret (d : Dashboard) : Run := {| result := d; thrown := false |}.
Definition raise (d : Dashboard) : Run := {| result := d; thrown := true |}.

Definition openRightMenu (d : Dashboard) : Run :=
  let d := addClass "offcanvas-overlap-left" d in
  match machine d with
  | Some _ =>
      match ui d with
      | Some _ => ret (emit ResizeDoc (emit SetMenuOpen d))
      | None => raise d              (* that.ui is null *)
      end
  | None => ret (emit ResizeDoc d)
  end.

Definition closeRightMenu (d : Dashboard) : Run :=
  let d := removeClass "offcanvas-overlap-left" d in
  match machine d with
  | Some _ =>
      match ui d with
      | Some _ => ret (emit ResizeDoc (emit SetMenuClosed d))
      | None => raise d
      end
  | None => ret (emit ResizeDoc d)
  end.

Definition bindRightMenu (d : Dashboard) : Run :=
  if hasClass "offcanvas-overlap-left" d then closeRightMenu d
  else openRightMenu d.

(** [e.data]: the three properties the listener looks at. *)
Record Data : Type := {
  showDRO : option jsval;
  job : option jsval;
  getMachine : option jsval
}.

Record MessageEvent : Type := { source : Frame; data : Data }.

(** [Dashboard.prototype.jobManager] *)
Definition jobManager (d : Dashboard) : Dashboard :=
  emit (LaunchApp "job-manager") d.

(** The listener [registerHandlers] installs.  [add_job_err] is the error
    the machine's [add_job] hands to its callback, if any.  An exception
    raised while handling is thrown again by the [catch] block. *)
Definition on_message (add_job_err : option string) (e : MessageEvent)
                      (d : Dashboard) : Run :=
  if bool_decide (showDRO (data e) = Some (JBool true)) then
    openRightMenu d
  else if bool_decide (showDRO (data e) = Some (JBool false)) then
    closeRightMenu d
  else
    match job (data e) with
    | Some j =>
        match machine d with
        | None => raise d            (* this.machine is null *)
        | Some _ =>
            let d := emit (AddJob j) d in
            match add_job_err with
            | Some err => ret (emit (ConsoleLog err) d)
            | None => ret (jobManager d)
            end
        end
    | None =>
        if bool_decide (getMachine (data e) = Some (JBool true)) then
          match machine d with
          | None =>
              raise (emit (ConsoleLog "Dashboard responding with machine null") d)
          | Some m =>
              let d := emit (ConsoleLog "Dashboard responding with machine [object Object]") d in
              let msg : Obj := <["port" := m !! "port"]> (<["ip" := m !! "ip"]> ∅) in
              ret (emit (PostMessage (source e) msg "*") d)
          end
        else ret d
    end.

Definition posts (d : Dashboard) : list Event :=
  List.filter is_PostMessage (trace d).

(** The class of [#main] that shows the right menu. *)
Definition panel : string := "offcanvas-overlap-left".

(** [Dashboard.prototype.notification] *)
Definition notification (type message : string) (d : Dashboard) : Dashboard :=
  if String.eqb type "info" then emit (Toastr "info" message) d
  else if String.eqb type "success" then emit (Toastr "success" message) d
  else if String.eqb type "warning" then emit (Toastr "warning" message) d
  else if String.eqb type "error" then emit (Toastr "error" message) d
  else emit (ConsoleLog "Unknown type of notification") d.

(** [Dashboard.prototype.keypad] *)
Definition keypad (test : bool) (d : Dashboard) : Run :=
  match machine d with
  | Some _ =>
      match ui d with
      | None => raise d              (* that.ui is null *)
      | Some u =>
          if statusKeypad u && test then bindRightMenu d
          else ret (notification "error" "KeyPad Unvailable" d)
      end
  | None => ret (notification "warning" "Please Connect to a tool" d)
  end.

End Dashboard.

(** ** Concrete worlds *)

Module Examples.
Import JS Engine.

(** The process right after [new Engine()], with the configuration [cfg]
    and the files [fs] on disk. *)
Definition fresh (cfg : gmap string jsval) (fs : gmap string string) : Sys :=
  {| engine := new_Engine; engine_config := cfg; files := fs; trace := [] |}.

(** A Linux box at commit [0a1b2c3]: the command line is [args], the
    motion hardware answers or not ([connected]), the two calls of
    [config.createDataDirectories] answer [dirs_1] and [dirs_2], writing a
    file answers [wr], and every other collaborator reports success. *)
Definition box (args : gmap string jsval) (connected : bool)
               (dirs_1 dirs_2 wr : option Err) : World :=
  {| PLATFORM := "linux";
     argv := args;
     getDataDir := "/opt/fabmo";
     read_fails := fun _ => None;
     write_fails := fun _ => wr;
     JSON_parse := fun _ => Malformed;
     git_rev_parse := Some "0a1b2c3 ";
     Math_random := {| mant := 2 ^ 52; expo := 53 |};
     randomBytes := fun n => repeat Byte.xa5 n;
     glob_files := [];
     machine_machine := {| isConnected := connected |};
     machine_units := Some (JStr "in");
     driver_has := fun _ => false;
     createDataDirectories_1 := dirs_1;
     configureEngine := None;
     profiles_load := None;
     set_profile := None;
     clearAppRoot := None;
     createDataDirectories_2 := dirs_2;
     engine_apply := None;
     configureDB := None;
     db_cleanup := None;
     machine_connect := if connected then None else Some "no device";
     configureMachine := None;
     setUnits := None;
     configureDriver := None;
     configureDriver_null_calls_back := true;
     driver_get := inr ["101.03"; "0.99"; "cfg"];
     loadCommands := None;
     configureOpenSBP := None;
     machine_apply := None;
     dashboard_configure := None;
     macros_load := None;
     configureInstance := None;
     instance_apply := None |}.

Definition debug_args : gmap string jsval := {["debug" := JBool true]}.

Definition slow_args : gmap string jsval := {["debug" := JStr "slow"]}.

(** The same world, with a [config.configureDriver] that does not invoke
    the callback it is given together with a [null] driver. *)
Definition silent_driver_config (w : World) : World :=
  {| PLATFORM := PLATFORM w;
     argv := argv w;
     getDataDir := getDataDir w;
     read_fails := read_fails w;
     write_fails := write_fails w;
     JSON_parse := JSON_parse w;
     git_rev_parse := git_rev_parse w;
     Math_random := Math_random w;
     randomBytes := randomBytes w;
     glob_files := glob_files w;
     machine_machine := machine_machine w;
     machine_units := machine_units w;
     driver_has := driver_has w;
     createDataDirectories_1 := createDataDirectories_1 w;
     configureEngine := configureEngine w;
     profiles_load := profiles_load w;
     set_profile := set_profile w;
     clearAppRoot := clearAppRoot w;
     createDataDirectories_2 := createDataDirectories_2 w;
     engine_apply := engine_apply w;
     configureDB := configureDB w;
     db_cleanup := db_cleanup w;
     machine_connect := machine_connect w;
     configureMachine := configureMachine w;
     setUnits := setUnits w;
     configureDriver := configureDriver w;
     configureDriver_null_calls_back := false;
     driver_get := driver_get w;
     loadCommands := loadCommands w;
     configureOpenSBP := configureOpenSBP w;
     machine_apply := machine_apply w;
     dashboard_configure := dashboard_configure w;
     macros_load := macros_load w;
     configureInstance := configureInstance w;
     instance_apply := instance_apply w |}.

(** A state in which [get_fabmo_version] has run. *)
Definition versioned (stored : string) (h : string) : Sys :=
  {| engine := set_version
                 (Some {| hash := h; number := ""; debug := false;
                          vtype := Some "dev" |}) new_Engine;
     engine_config := {["version" := JStr stored]};
     files := ∅; trace := [] |}.

(** A state in which [load_machine_config] has run. *)
Definition with_machine (m : Machine) : Sys :=
  {| engine := set_machine (Some m) new_Engine;
     engine_config := ∅; files := ∅; trace := [] |}.

(** A state in which [generate_auth_key] has adopted [key]. *)
Definition with_secret (key : string) : Sys :=
  {| engine := set_auth_secret (Some key) new_Engine;
     engine_config := ∅; files := ∅; trace := [] |}.

(** A disk that holds [key] as the secret of [box]. *)
Definition disk_with_secret (key : string) : gmap string string :=
  {["/opt/fabmo/config/auth_secret" := key]}.

Definition stored_key : string := hex (repeat Byte.x3c 256).

(** The key [box] generates: its [crypto.randomBytes] returns bytes [0xa5]. *)
Definition fresh_key : string :=
  "a5a5a5a5a5a5a5a5a5a5a5a5a5a5a5a5a5a5a5a5a5a5a5a5a5a5a5a5a5a5a5a5a5a5a5a5a5a5a5a5a5a5a5a5a5a5a5a5a5a5a5a5a5a5a5a5a5a5a5a5a5a5a5a5a5a5a5a5a5a5a5a5a5a5a5a5a5a5a5a5a5a5a5a5a5a5a5a5a5a5a5a5a5a5a5a5a5a5a5a5a5a5a5a5a5a5a5a5a5a5a5a5a5a5a5a5a5a5a5a5a5a5a5a5a5a5a5a5a5a5a5a5a5a5a5a5a5a5a5a5a5a5a5a5a5a5a5a5a5a5a5a5a5a5a5a5a5a5a5a5a5a5a5a5a5a5a5a5a5a5a5a5a5a5a5a5a5a5a5a5a5a5a5a5a5a5a5a5a5a5a5a5a5a5a5a5a5a5a5a5a5a5a5a5a5a5a5a5a5a5a5a5a5a5a5a5a5a5a5a5a5a5a5a5a5a5a5a5a5a5a5a5a5a5a5a5a5a5a5a5a5a5a5a5a5a5a5a5a5a5a5a5a5a5a5a5".

End Examples.

(** * Properties *)

(** ** Numbers and strings *)

Module JSFacts.
Import JS.

Lemma round_nearest_even_upper (p k : Z) :
  0 <= p -> 0 <= k ->
  0 <= round_nearest_even p k /\
  2 * (round_nearest_even p k * 2 ^ k) <= 2 * p + 2 ^ k.
Proof.
  intros Hp Hk.
  assert (Hpos : 0 < 2 ^ k) by (apply Z.pow_pos_nonneg; lia).
  pose proof (Z.div_mod p (2 ^ k) ltac:(lia)) as Hdm.
  pose proof (Z.mod_pos_bound p (2 ^ k) Hpos) as Hr.
  assert (Hq : 0 <= p / 2 ^ k) by (apply Z.div_pos; lia).
  unfold round_nearest_even.
  destruct (Z.ltb_spec (2 * (p mod 2 ^ k)) (2 ^ k)); [nia|].
  destruct (Z.eqb_spec (2 * (p mod 2 ^ k)) (2 ^ k));
    [destruct (Z.even (p / 2 ^ k))|]; nia.
Qed.

(** The product of a double below 1 with 89999 stays below 89999 after
    rounding: the last double before 1 is [1 - 2^-53], and the rounding
    error of the product is at most [2^16] units of [2^-expo]. *)
Lemma floor_mul_range (r : unit_double) :
  unit_double_ok r = true -> 0 <= floor_mul r 89999 < 89999.
Proof.
  destruct r as [m e]. unfold unit_double_ok, floor_mul. cbn [mant expo].
  rewrite !andb_true_iff.
  intros [[[[Hm0 Hm53] He0] He] Hme].
  apply Z.leb_le in Hm0, He0, He. apply Z.ltb_lt in Hm53, Hme.
  set (p := m * 89999).
  set (k := Z.max 0 (Z.log2 p + 1 - 53)).
  assert (Hp : 0 <= p) by (unfold p; lia).
  assert (Hk0 : 0 <= k) by (unfold k; lia).
  assert (Hk17 : k <= 17).
  { unfold k. destruct (Z.eq_dec p 0) as [->|Hne]; [cbn; lia|].
    assert (Z.log2 p < 70); [|lia].
    apply Z.log2_lt_pow2; [lia|].
    unfold p. change (2 ^ 70) with (2 ^ 53 * 131072). nia. }
  assert (H2k : 2 ^ k <= 131072).
  { change 131072 with (2 ^ 17). apply Z.pow_le_mono_r; lia. }
  assert (He2 : 0 < 2 ^ e) by (apply Z.pow_pos_nonneg; lia).
  destruct (round_nearest_even_upper p k Hp Hk0) as [Hq0 Hup].
  assert (H2k0 : 0 < 2 ^ k) by (apply Z.pow_pos_nonneg; lia).
  split.
  - apply Z.div_pos; [nia|lia].
  - apply Z.div_lt_upper_bound; [lia|].
    set (x := round_nearest_even p k * 2 ^ k) in *.
    unfold p in Hup. lia.
Qed.

Lemma length_append (a b : string) :
  String.length (a ++ b) = (String.length a + String.length b)%nat.
Proof. induction a as [|c a IH]; simpl; [reflexivity | now f_equal]. Qed.

Lemma all_chars_append (p : ascii -> bool) (a b : string) :
  all_chars p (a ++ b) = all_chars p a && all_chars p b.
Proof.
  induction a as [|c a IH]; simpl; [reflexivity|].
  now rewrite IH, andb_assoc.
Qed.

Lemma hex_of_byte_digits (b : Byte.byte) :
  String.length (hex_of_byte b) = 2%nat /\
  all_chars is_hex_digit (hex_of_byte b) = true.
Proof. destruct b; split; reflexivity. Qed.

(** [buf.toString('hex')] has two hexadecimal digits per byte. *)
Lemma hex_length (bs : list Byte.byte) :
  String.length (hex bs) = (2 * length bs)%nat.
Proof.
  induction bs as [|b bs IH]; [reflexivity|].
  cbn [hex length]. rewrite length_append, IH.
  destruct (hex_of_byte_digits b) as [-> _]. lia.
Qed.

Lemma hex_digits (bs : list Byte.byte) :
  all_chars is_hex_digit (hex bs) = true.
Proof.
  induction bs as [|b bs IH]; [reflexivity|].
  cbn [hex]. rewrite all_chars_append, IH.
  now destruct (hex_of_byte_digits b) as [_ ->].
Qed.

Lemma round_nearest_even_between (p k : Z) :
  p / 2 ^ k <= round_nearest_even p k <= p / 2 ^ k + 1.
Proof.
  unfold round_nearest_even.
  destruct (Z.ltb (2 * (p mod 2 ^ k)) (2 ^ k)); [lia|].
  destruct (Z.eqb (2 * (p mod 2 ^ k)) (2 ^ k)); [destruct (Z.even _)|]; lia.
Qed.

Lemma round_nearest_even_exact (p k : Z) :
  0 <= k -> p mod 2 ^ k = 0 -> round_nearest_even p k * 2 ^ k = p.
Proof.
  intros Hk Hmod. unfold round_nearest_even. rewrite Hmod.
  assert (H2 : 0 < 2 ^ k) by (apply Z.pow_pos_nonneg; lia).
  destruct (Z.ltb_spec (2 * 0) (2 ^ k)) as [_|Hge]; [|lia].
  pose proof (Z.div_mod p (2 ^ k) ltac:(lia)) as Hdm. lia.
Qed.

(** The double product is the exact one rounded to 53 bits, and integers
    are doubles, so flooring it gives the floor of the exact product or,
    when the rounding went up to the next integer, that floor plus one; a
    product whose significant bits fit in 53 bits is not rounded at all. *)
Lemma floor_mul_near_exact (r : unit_double) :
  unit_double_ok r = true ->
  exact_floor_mul r 89999 <= floor_mul r 89999 <= exact_floor_mul r 89999 + 1 /\
  (forall m j, 0 <= j -> mant r = m * 2 ^ j -> m * 89999 < 2 ^ 53 ->
   floor_mul r 89999 = exact_floor_mul r 89999).
Proof.
  destruct r as [m e].
  unfold unit_double_ok, floor_mul, exact_floor_mul. cbn [mant expo].
  rewrite !andb_true_iff.
  intros [[[[Hm0 Hm53] He0] He] Hme].
  apply Z.leb_le in Hm0, He0, He. apply Z.ltb_lt in Hm53, Hme.
  set (p := m * 89999).
  assert (Hp : 0 <= p) by (unfold p; lia).
  assert (He2 : 0 < 2 ^ e) by (apply Z.pow_pos_nonneg; lia).
  assert (Hsmall : p < 2 ^ 53 -> Z.max 0 (Z.log2 p + 1 - 53) = 0).
  { intros Hlt. destruct (Z.eq_dec p 0) as [->|Hne]; [reflexivity|].
    assert (Z.log2 p < 53) by (apply Z.log2_lt_pow2; lia). lia. }
  split.
  - set (k := Z.max 0 (Z.log2 p + 1 - 53)).
    assert (Hk0 : 0 <= k) by (unfold k; lia).
    assert (Hke : k <= e).
    { destruct (Z.lt_ge_cases p (2 ^ 53)) as [Hlt|Hge].
      - unfold k. rewrite (Hsmall Hlt). lia.
      - assert (Hk17 : k <= 17).
        { unfold k. assert (Z.log2 p < 70); [|lia].
          apply Z.log2_lt_pow2; [lia|].
          unfold p. change (2 ^ 70) with (2 ^ 53 * 131072). nia. }
        assert (H36 : 2 ^ 36 < 2 ^ e).
        { change (2 ^ 53) with (2 ^ 36 * 131072) in Hge. unfold p in Hge. lia. }
        apply Z.pow_lt_mono_r_iff in H36; lia. }
    assert (HK : 0 < 2 ^ k) by (apply Z.pow_pos_nonneg; lia).
    assert (HT : 0 < 2 ^ (e - k)) by (apply Z.pow_pos_nonneg; lia).
    assert (Hsplit : 2 ^ e = 2 ^ k * 2 ^ (e - k)).
    { rewrite <- Z.pow_add_r by lia. f_equal. lia. }
    pose proof (round_nearest_even_between p k) as Hq.
    pose proof (Z.div_mod p (2 ^ e) ltac:(lia)) as Hdm.
    pose proof (Z.mod_pos_bound p (2 ^ e) He2) as Hr.
    set (N := p / 2 ^ e) in *.
    assert (Hlow : 2 ^ (e - k) * N <= p / 2 ^ k).
    { apply Z.div_le_lower_bound; [lia|]. rewrite Z.mul_assoc, <- Hsplit. lia. }
    assert (Hup : p / 2 ^ k < 2 ^ (e - k) * (N + 1)).
    { apply Z.div_lt_upper_bound; [lia|]. rewrite Z.mul_assoc, <- Hsplit. lia. }
    split.
    + apply Z.div_le_lower_bound; [lia|]. rewrite Hsplit. nia.
    + apply Z.div_le_upper_bound; [lia|]. rewrite Hsplit. nia.
  - intros m' j Hj Hm Hlt.
    set (k := Z.max 0 (Z.log2 p + 1 - 53)).
    assert (Hk0 : 0 <= k) by (unfold k; lia).
    assert (H2j : 0 < 2 ^ j) by (apply Z.pow_pos_nonneg; lia).
    rewrite round_nearest_even_exact; [reflexivity | exact Hk0 |].
    destruct (Z.eq_dec p 0) as [Hz|Hne].
    { rewrite Hz. apply Zmod_0_l. }
    assert (Hkj : k <= j).
    { assert (Hpos : 0 < m' * 89999) by (unfold p in *; nia).
      assert (Hlog : Z.log2 (m' * 89999) < 53)
        by (apply Z.log2_lt_pow2; lia).
      assert (Hp' : p = m' * 89999 * 2 ^ j) by (unfold p; rewrite Hm; ring).
      unfold k. rewrite Hp', Z.log2_mul_pow2 by lia. lia. }
    assert (Hp' : p = m' * 89999 * 2 ^ (j - k) * 2 ^ k).
    { replace (m' * 89999 * 2 ^ (j - k) * 2 ^ k)
        with (m' * 89999 * (2 ^ (j - k) * 2 ^ k)) by ring.
      rewrite <- Z.pow_add_r by lia.
      replace (j - k + k) with j by lia. unfold p. rewrite Hm. ring. }
    rewrite Hp'. apply Z.mod_mul.
    apply Z.pow_nonzero; lia.
Qed.

Lemma hex_of_byte_decodes (b : Byte.byte) :
  match hex_of_byte b with
  | String a (String c EmptyString) =>
      match digit_value a, digit_value c with
      | Some x, Some y => Byte.of_N (16 * x + y) = Some b
      | _, _ => False
      end
  | _ => False
  end.
Proof. destruct b; vm_compute; reflexivity. Qed.

Lemma unhex_hex_of_byte (b : Byte.byte) (rest : string) :
  unhex (hex_of_byte b ++ rest) =
  match unhex rest with
  | Some bs => Some (b :: bs)
  | None => None
  end.
Proof.
  pose proof (hex_of_byte_decodes b) as H.
  destruct (hex_of_byte b) as [|a [|c [|? ?]]]; try contradiction.
  change (String a (String c "") ++ rest) with (String a (String c rest)).
  cbn [unhex].
  destruct (digit_value a) as [x|]; [|contradiction].
  destruct (digit_value c) as [y|]; [|contradiction].
  rewrite H. now destruct (unhex rest).
Qed.

(** Hex-encoding loses nothing: the digits decode back to the bytes. *)
Lemma unhex_hex (bs : list Byte.byte) : unhex (hex bs) = Some bs.
Proof.
  induction bs as [|b bs IH]; [reflexivity|].
  cbn [hex]. now rewrite unhex_hex_of_byte, IH.
Qed.

End JSFacts.

(** ** The engine *)

Module EngineSpec.
Import JS JSFacts Engine.

(** *** Traces *)

Lemma count_app (p : Event -> bool) (t u : list Event) :
  count p (t ++ u) = (count p t + count p u)%nat.
Proof. unfold count. now rewrite List.filter_app, length_app. Qed.

Lemma count_emit (p : Event -> bool) (e : Event) (s : Sys) :
  count p (trace (emit e s)) =
  (count p (trace s) + (if p e then 1 else 0))%nat.
Proof. cbn [emit trace]. rewrite count_app. unfold count. cbn. now destruct (p e). Qed.



Lemma config_get_emit (k : string) (e : Event) (s : Sys) :
  config_get k (emit e s) = config_get k s.
Proof. reflexivity. Qed.

Lemma config_get_log_if (k : string) (err : option Err) (ev : Err -> Event) (s : Sys) :
  config_get k (log_if err ev s) = config_get k s.
Proof. now destruct err. Qed.

Lemma config_get_set (k : string) (v : jsval) (s : Sys) :
  config_get k (config_set k v s) = Some v.
Proof. unfold config_get, config_set. cbn. apply lookup_insert_eq. Qed.

(** *** Time synchronisation *)

Lemma setTime_synced (d : Date) (s : Sys) :
  time_synced (engine s) = true -> setTime d s = s.
Proof. unfold setTime. now intros ->. Qed.

Lemma setTime_unsynced (d : Date) (s : Sys) :
  time_synced (engine s) = false ->
  time_synced (engine (setTime d s)) = true /\
  trace (setTime d s) =
  (trace s ++ [Shell ("timedatectl set-time " ++ date_string d ++ "; timedatectl")])%list.
Proof. unfold setTime. intros ->. split; reflexivity. Qed.

Lemma last_default {A} (l : list A) (b d d' : A) :
  List.last (b :: l) d = List.last (b :: l) d'.
Proof.
  revert b. induction l as [|a l IH]; intros b; [reflexivity|].
  change (List.last (a :: l) d = List.last (a :: l) d'). apply IH.
Qed.

Lemma last_cons {A} (l : list A) (a d : A) :
  List.last (a :: l) d = List.last l a.
Proof. destruct l as [|b l]; [reflexivity|]. apply (last_default (b :: l)). Qed.

Lemma setTime_all_synced (ds : list Date) (s : Sys) :
  time_synced (engine s) = true ->
  rises true (map (fun x => time_synced (engine x)) (setTime_all ds s)) = 0%nat /\
  List.last (setTime_all ds s) s = s.
Proof.
  intros Hs. induction ds as [|d ds IH]; [split; reflexivity|].
  cbn [setTime_all]. rewrite (setTime_synced d s Hs).
  cbn [map rises]. rewrite Hs. destruct IH as [IH1 IH2]. split.
  - exact IH1.
  - now rewrite last_cons.
Qed.

(** C7.  [setTime].  Once [time_synced] is set a call changes nothing and
    issues no command.  A call on an engine whose flag is unset (as in a
    new [Engine]) sets the flag and issues one [timedatectl set-time]
    command.  Hence, along any sequence of calls from any state, the flag
    goes from false to true at most once and at most one command is
    issued. *)
Theorem setTime_syncs_once :
  (forall d s, time_synced (engine s) = true -> setTime d s = s) /\
  time_synced new_Engine = false /\
  (forall d s,
     time_synced (engine s) = false ->
     time_synced (engine (setTime d s)) = true /\
     trace (setTime d s) =
     (trace s ++ [Shell ("timedatectl set-time " ++ date_string d ++ "; timedatectl")])%list) /\
  (forall ds s,
     (rises (time_synced (engine s))
        (map (fun x => time_synced (engine x)) (setTime_all ds s)) <= 1)%nat /\
     (count is_Shell (trace (List.last (setTime_all ds s) s))
      <= count is_Shell (trace s) + 1)%nat).
Proof.
  split; [exact setTime_synced|]. split; [reflexivity|].
  split; [exact setTime_unsynced|].
  intros [|d ds] s; [cbn; split; lia|].
  destruct (time_synced (engine s)) eqn:Hs.
  - destruct (setTime_all_synced (d :: ds) s Hs) as [-> ->]. lia.
  - destruct (setTime_unsynced d s Hs) as [Hflag Htr].
    destruct (setTime_all_synced ds (setTime d s) Hflag) as [Hr Hl].
    cbn [setTime_all map rises]. rewrite Hflag, Hr. split; [cbn; lia|].
    rewrite last_cons, Hl, Htr, count_app. cbn. lia.
Qed.

Lemma setTime_syncs_once_witness :
  let s := Examples.fresh ∅ ∅ in
  let d := ValidDate 2020 0 3 12 30 15 in
  trace (setTime d s) =
    [Shell "timedatectl set-time 2020-0-3 12:30:15; timedatectl"] /\
  setTime d (setTime d s) = setTime d s.
Proof.
  intros s d. destruct setTime_syncs_once as (Hnoop & _ & Hfirst & _).
  destruct (Hfirst d s eq_refl) as [Hflag Htr]. split.
  - exact Htr.
  - exact (Hnoop d (setTime d s) Hflag).
Defined.

(** *** The version gate *)



(** *** The series *)

Lemma series_fails_at (pre post : list (string * Stage)) (name : string)
      (f : Stage) (s s1 : Sys) (e : Err) :
  succeed_all pre s = Some s1 ->
  threw (f s1) = false ->
  calls (f s1) = [Some e] ->
  series (pre ++ (name, f) :: post) s =
  {| final := after (f s1); ran := (map fst pre ++ [name])%list;
     ending := Finished (Some e) |}.
Proof.
  revert s. induction pre as [|[n g] pre IH]; intros s Hpre Hthrew Hcall.
  - injection Hpre as ->. cbn [app series map]. now rewrite Hthrew, Hcall.
  - cbn [app series map fst succeed_all] in *.
    destruct (threw (g s)); [discriminate|].
    destruct (calls (g s)) as [|[e'|] [|? ?]]; try discriminate.
    now rewrite (IH _ Hpre Hthrew Hcall).
Qed.

(** A stage that calls back a second time ends the series there. *)
Lemma series_called_twice (pre post : list (string * Stage)) (name : string)
      (f : Stage) (s s1 : Sys) (first second : option Err)
      (rest : list (option Err)) :
  succeed_all pre s = Some s1 ->
  threw (f s1) = false ->
  calls (f s1) = first :: second :: rest ->
  series (pre ++ (name, f) :: post) s =
  {| final := after (f s1); ran := (map fst pre ++ [name])%list;
     ending := CalledTwice first |}.
Proof.
  revert s. induction pre as [|[n g] pre IH]; intros s Hpre Hthrew Hcall.
  - injection Hpre as ->. cbn [app series map]. rewrite Hthrew, Hcall.
    now destruct first.
  - cbn [app series map fst succeed_all] in *.
    destruct (threw (g s)); [discriminate|].
    destruct (calls (g s)) as [|[e'|] [|? ?]]; try discriminate.
    now rewrite (IH _ Hpre Hthrew Hcall).
Qed.

Lemma series_succeeds (tasks : list (string * Stage)) (s s' : Sys) :
  succeed_all tasks s = Some s' ->
  series tasks s =
  {| final := s'; ran := map fst tasks; ending := Finished None |}.
Proof.
  revert s. induction tasks as [|[n g] tasks IH]; intros s H.
  - now injection H as ->.
  - cbn [series map fst succeed_all] in *.
    destruct (threw (g s)); [discriminate|].
    destruct (calls (g s)) as [|[e'|] [|? ?]]; try discriminate.
    now rewrite (IH _ H).
Qed.

(** A series that ends with an error ends at the first task that reports
    one, after all the tasks before it succeeded. *)
Lemma series_error_origin (tasks : list (string * Stage)) (s : Sys) (e : Err) :
  ending (series tasks s) = Finished (Some e) ->
  exists pre name f post s1,
    tasks = (pre ++ (name, f) :: post)%list /\
    succeed_all pre s = Some s1 /\
    threw (f s1) = false /\
    calls (f s1) = [Some e].
Proof.
  revert s. induction tasks as [|[n g] tasks IH]; intros s H; [discriminate|].
  cbn [series] in H.
  destruct (threw (g s)) eqn:Ht; [discriminate|].
  destruct (calls (g s)) as [|[e'|] [|? ?]] eqn:Hc; cbn [ending] in H;
    try discriminate.
  - injection H as ->. exists [], n, g, tasks, s.
    rewrite Hc. repeat split; assumption.
  - destruct (IH _ H) as (pre & name & f & post & s1 & -> & Hpre & Hf & He).
    exists ((n, g) :: pre), name, f, post, s1. repeat split; try assumption.
    cbn [succeed_all]. now rewrite Ht, Hc.
Qed.

Lemma start_failure_contract_core (w : World) (s s' : Sys) :
  succeed_all (stages w) s = Some s' ->
  ran (boot (start w true s)) = map fst (stages w) /\
  terminal (start w true s) = [TOk (engine s')] /\
  end_state (start w true s) = s'.
Proof.
  intros Hall. unfold start.
  rewrite (series_succeeds _ _ _ Hall). repeat split.
Qed.

(** C2.  The failure contract of [start].  A stage succeeds when it
    returns and calls back exactly once, without an error; it fails when
    it returns and calls back exactly once, with an error.  If the stages
    before some stage succeed and that stage fails, no later stage is
    started and the callback given to [start] is invoked once, with the
    error as its only argument: neither the stage's name nor the engine is
    passed.  If every stage succeeds, all stages have run in order and the
    callback is invoked once with no error and the engine in its final
    state.  The callback is never invoked twice. *)
Theorem start_failure_contract (w : World) (s : Sys) :
  (forall pre name f post s1 e,
     stages w = (pre ++ (name, f) :: post)%list ->
     succeed_all pre s = Some s1 ->
     threw (f s1) = false ->
     calls (f s1) = [Some e] ->
     ran (boot (start w true s)) = (map fst pre ++ [name])%list /\
     terminal (start w true s) = [TErr e] /\
     end_state (start w true s) = emit (LogError e) (emit LogStack (after (f s1)))) /\
  (forall s',
     succeed_all (stages w) s = Some s' ->
     ran (boot (start w true s)) = map fst (stages w) /\
     terminal (start w true s) = [TOk (engine s')] /\
     end_state (start w true s) = s') /\
  (length (terminal (start w true s)) <= 1)%nat.
Proof.
  split; [|split].
  - intros pre name f post s1 e Hst Hpre Hthrew Hcall.
    unfold start. rewrite Hst.
    rewrite (series_fails_at pre post name f s s1 e Hpre Hthrew Hcall).
    repeat split.
  - intros s' Hall. now apply start_failure_contract_core.
  - unfold start. generalize (series (stages w) s) as r. intros r.
    destruct (ending r) as [[e|]| | |[e|]]; cbn [terminal length]; lia.
Qed.

Lemma start_failure_contract_witness :
  (let w := Examples.box ∅ true None (Some "EACCES") None in
   let s := Examples.fresh ∅ ∅ in
   ran (boot (start w true s)) =
     ["setup_application"; "load_engine_config"; "check_engine_config";
      "load_profiles"; "load_users"; "profile_shim"; "get_fabmo_version";
      "clear_approot"; "create_data_directories"] /\
   terminal (start w true s) = [TErr "EACCES"]) /\
  (length (ran (boot (start (Examples.box ∅ true None None None) true
                        (Examples.fresh ∅ ∅)))) = 29%nat /\
   exists this,
     terminal (start (Examples.box ∅ true None None None) true
                 (Examples.fresh ∅ ∅)) = [TOk this] /\
     time_synced this = false).
Proof.
  split.
  - intros w s.
    destruct (start_failure_contract w s) as [H _].
    destruct (H (firstn 8 (stages w)) "create_data_directories"
                (create_data_directories w) (skipn 9 (stages w))
                (final (series (firstn 8 (stages w)) s)) "EACCES")
      as (Hran & Hterm & _).
    + reflexivity.
    + vm_compute. reflexivity.
    + reflexivity.
    + reflexivity.
    + split; [exact Hran | exact Hterm].
  - destruct (start_failure_contract (Examples.box ∅ true None None None)
                (Examples.fresh ∅ ∅)) as (_ & H & _).
    destruct (H (final (series (stages (Examples.box ∅ true None None None))
                          (Examples.fresh ∅ ∅))))
      as (Hran & Hterm & _).
    + vm_compute. reflexivity.
    + split; [now rewrite Hran|].
      eexists. split; [exact Hterm|]. vm_compute. reflexivity.
Defined.

(** The claim as worded by the spec has the callback receive the name of
    the failing stage.  Two boots that fail with the same error in
    different stages invoke it with the same arguments, so no reader of
    those arguments can tell the stage. *)
Lemma start_terminal_hides_stage :
  ~ (exists stage_of : list TermCall -> string,
       forall w s e,
         ending (boot (start w true s)) = Finished (Some e) ->
         stage_of (terminal (start w true s)) =
         List.last (ran (boot (start w true s))) "").
Proof.
  intros [stage_of H].
  pose proof (H (Examples.box ∅ true (Some "EACCES") None None)
                (Examples.fresh ∅ ∅) "EACCES" eq_refl) as H1.
  pose proof (H (Examples.box ∅ true None (Some "EACCES") None)
                (Examples.fresh ∅ ∅) "EACCES") as H2.
  revert H1 H2. vm_compute. intros H1 H2. specialize (H2 eq_refl).
  congruence.
Qed.

(** *** Stages and the hardware connection *)

Lemma readFile_fst (w : World) (path : string) (s : Sys) :
  fst (readFile w path s) = emit (ReadFile path) s.
Proof.
  unfold readFile. destruct (read_fails w path); [reflexivity|].
  now destruct (files (emit (ReadFile path) s) !! path).
Qed.

Lemma writeFile_trace (w : World) (path data : string) (s : Sys) :
  trace (fst (writeFile w path data s)) = (trace s ++ [WriteFile path data])%list.
Proof. unfold writeFile. now destruct (write_fails w path). Qed.

Lemma writeFile_engine (w : World) (path data : string) (s : Sys) :
  engine (fst (writeFile w path data s)) = engine s.
Proof. unfold writeFile. now destruct (write_fails w path). Qed.

Lemma writeFile_engine_config (w : World) (path data : string) (s : Sys) :
  engine_config (fst (writeFile w path data s)) = engine_config s.
Proof. unfold writeFile. now destruct (write_fails w path). Qed.

Lemma getVersion_fst (w : World) (s : Sys) :
  fst (getVersion w s) =
  emit (ReadFile "version.json") (emit (Shell "git rev-parse --verify HEAD") s).
Proof.
  unfold getVersion.
  pose proof (readFile_fst w "version.json"
                (emit (Shell "git rev-parse --verify HEAD") s)) as E.
  destruct (readFile w "version.json" _) as [s' r]. exact E.
Qed.

(** Case analysis on the next thing a stage looks at; the state a file
    operation leaves is kept by its equations. *)
Ltac break_match :=
  match goal with
  | |- context [getVersion ?w ?s] =>
      let s' := fresh "s" in let v := fresh "v" in let E := fresh "E" in
      pose proof (getVersion_fst w s) as E;
      destruct (getVersion w s) as [s' v]; cbn [fst] in E; subst s'
  | |- context [readFile ?w ?p ?s] =>
      let s' := fresh "s" in let r := fresh "r" in let E := fresh "E" in
      pose proof (readFile_fst w p s) as E;
      destruct (readFile w p s) as [s' r]; cbn [fst] in E; subst s'
  | |- context [writeFile ?w ?p ?d ?s] =>
      let s' := fresh "s" in let r := fresh "r" in
      let E1 := fresh "E" in let E2 := fresh "E" in let E3 := fresh "E" in
      pose proof (writeFile_trace w p d s) as E1;
      pose proof (writeFile_engine w p d s) as E2;
      pose proof (writeFile_engine_config w p d s) as E3;
      destruct (writeFile w p d s) as [s' r]; cbn [fst] in E1, E2, E3
  | |- context [if ?x then emit _ _ else _] => destruct x eqn:?
  | |- context [match ?x with _ => _ end] => destruct x eqn:?
  | |- context [if ?x then _ else _] => destruct x eqn:?
  end.

Ltac unfold_stage :=
  unfold setup_application, load_engine_config, check_engine_config,
    load_profiles, load_users, profile_shim, get_fabmo_version,
    clear_approot, create_data_directories, apply_engine_config,
    setup_database, clean_database, connect, launch_detection_daemon,
    load_machine_config, set_units, load_driver_config, get_g2_version,
    g2_shim, load_opensbp_commands, load_opensbp_config,
    apply_machine_config, configure_dashboard, load_apps, load_macros,
    load_instance_config, apply_instance_config, generate_auth_key,
    start_server, machine_isConnected.

(** The callbacks of [load_driver_config] with the hardware disconnected:
    the one the collaborator makes, if it makes one, and the stage's own. *)
Lemma load_driver_config_disconnected (w : World) (s : Sys) (m : Machine) :
  machine (engine s) = Some m ->
  isConnected m = false ->
  calls (load_driver_config w s) =
  ((if configureDriver_null_calls_back w then [None] else []) ++ [None])%list.
Proof.
  intros Hm Hc. unfold load_driver_config, machine_isConnected.
  now rewrite Hm, Hc.
Qed.

(** C5 asks every stage to invoke its completion callback exactly once.
    [load_driver_config], with the hardware disconnected, hands
    [config.configureDriver] a function that calls [callback(null)] and
    then calls [callback(null)] itself: once the collaborator calls back,
    the stage has completed twice. *)
Theorem load_driver_config_calls_back_twice (w : World) (s : Sys) (m : Machine) :
  machine (engine s) = Some m ->
  isConnected m = false ->
  configureDriver_null_calls_back w = true ->
  calls (load_driver_config w s) = [None; None] /\
  threw (load_driver_config w s) = false.
Proof.
  intros Hm Hc Hcb. split.
  - now rewrite (load_driver_config_disconnected w s m Hm Hc), Hcb.
  - unfold load_driver_config, machine_isConnected. now rewrite Hm, Hc.
Qed.

Lemma load_driver_config_calls_back_twice_witness :
  length (calls (load_driver_config
                   (Examples.box ∅ false None None None)
                   (Examples.with_machine {| isConnected := false |}))) = 2%nat.
Proof.
  destruct (load_driver_config_calls_back_twice
              (Examples.box ∅ false None None None)
              (Examples.with_machine {| isConnected := false |})
              {| isConnected := false |} eq_refl eq_refl eq_refl) as [-> _].
  reflexivity.
Defined.

(** Every other stage, on every path on which it returns, calls back
    exactly once; so does [load_driver_config] with the hardware
    connected. *)
Lemma other_stages_call_back_once (w : World) (name : string) (f : Stage) (s : Sys) :
  In (name, f) (stages w) ->
  name <> "load_driver_config" ->
  threw (f s) = false -> length (calls (f s)) = 1%nat.
Proof.
  unfold stages. intros Hin Hname.
  repeat (destruct Hin as [Hin|Hin];
          [injection Hin as <- <-;
           try (exfalso; apply Hname; reflexivity);
           unfold_stage; repeat break_match; cbn; intros; try reflexivity; discriminate
          |]).
  destruct Hin.
Qed.

Lemma load_driver_config_connected_once (w : World) (s : Sys) (m : Machine) :
  machine (engine s) = Some m -> isConnected m = true ->
  calls (load_driver_config w s) = [None].
Proof.
  intros Hm Hc. unfold load_driver_config, machine_isConnected.
  now rewrite Hm, Hc.
Qed.

Lemma series_preserves (I : Sys -> Prop) (tasks : list (string * Stage)) :
  Forall (fun nf => forall s, I s -> I (after (snd nf s))) tasks ->
  forall s, I s -> I (final (series tasks s)).
Proof.
  induction 1 as [|[n f] tasks Hf _ IH]; intros s Hs; [exact Hs|].
  cbn [series]. specialize (Hf s Hs). cbn [snd] in Hf.
  destruct (threw (f s)); [exact Hf|].
  destruct (calls (f s)) as [|[e|] [|? ?]]; try exact Hf.
  cbn [final]. now apply IH.
Qed.

Lemma succeed_all_preserves (I : Sys -> Prop) (tasks : list (string * Stage)) :
  Forall (fun nf => forall s, I s -> I (after (snd nf s))) tasks ->
  forall s s', succeed_all tasks s = Some s' -> I s -> I s'.
Proof.
  induction 1 as [|[n f] tasks Hf _ IH]; intros s s' H Hs.
  - now injection H as <-.
  - cbn [succeed_all] in H. specialize (Hf s Hs). cbn [snd] in Hf.
    destruct (threw (f s)); [discriminate|].
    destruct (calls (f s)) as [|[e|] [|? ?]]; try discriminate.
    exact (IH _ _ H Hf).
Qed.

Ltac unfold_io :=
  unfold EngineConfigFirstTime;
  unfold log_if, callback, throw;
  unfold config_set, config_update.

(** With the hardware disconnected no stage makes a hardware call. *)
Lemma stages_offline (w : World) :
  isConnected (machine_machine w) = false ->
  Forall (fun nf => forall s, offline w s -> offline w (after (snd nf s)))
         (stages w).
Proof.
  intros Hconn. unfold stages.
  repeat (apply List.Forall_cons;
    [intros s [Hc Hm]; cbn [snd]; unfold offline;
     unfold_stage; unfold_io;
     (destruct Hm as [Hm|Hm]; rewrite ?Hm, ?Hconn; repeat break_match;
      cbn [after engine trace emit with_engine with_engine_config with_files
           machine set_version set_machine set_firmware set_auth_secret
           set_server];
      repeat match goal with
             | E : trace ?x = _ |- _ => rewrite E; clear E
             | E : engine ?x = _ |- _ => rewrite E; clear E
             end;
      cbn [after engine trace emit with_engine with_engine_config with_files
           machine set_version set_machine set_firmware set_auth_secret
           set_server];
      rewrite ?Hm; (split; [|auto]);
      rewrite ?count_app, Hc; reflexivity)
    |]).
  apply List.Forall_nil.
Qed.

Lemma succeed_all_staged (I : nat -> Sys -> Prop)
      (tasks : list (string * Stage)) :
  forall k,
  (forall i n f s,
     nth_error tasks i = Some (n, f) -> I (k + i)%nat s ->
     threw (f s) = false /\ calls (f s) = [None] /\
     I (S (k + i)) (after (f s))) ->
  forall s, I k s ->
  exists s', succeed_all tasks s = Some s' /\ I (k + length tasks)%nat s'.
Proof.
  induction tasks as [|[n f] tasks IH]; intros k Hstep s Hs.
  - exists s. rewrite Nat.add_0_r. now split.
  - destruct (Hstep 0%nat n f s eq_refl) as (Ht & Hc & Hnext).
    { now rewrite Nat.add_0_r. }
    rewrite Nat.add_0_r in Hnext.
    destruct (IH (S k)) with (s := after (f s)) as (s' & Hs' & HI).
    + intros i n' f' s0 Hnth HI.
      replace (S k + i)%nat with (k + S i)%nat in * by lia.
      exact (Hstep (S i) n' f' s0 Hnth HI).
    + exact Hnext.
    + exists s'. cbn [succeed_all length]. rewrite Ht, Hc.
      split; [exact Hs'|]. now rewrite Nat.add_succ_r.
Qed.

Lemma config_get_set_ne (k k' : string) (v : jsval) (s : Sys) :
  k' <> k -> config_get k (config_set k' v s) = config_get k s.
Proof. intros H. unfold config_get, config_set. cbn. now apply lookup_insert_ne. Qed.

Ltac simpl_state :=
  cbn [after calls threw hd_error engine engine_config trace files
       emit with_engine with_engine_config with_files
       version machine auth_secret
       set_version set_machine set_firmware set_auth_secret set_server
       fold_left fst snd].

Ltac use_state_equations :=
  repeat match goal with
         | E : trace ?x = _ |- _ => rewrite ?E; clear E
         | E : engine ?x = _ |- _ => rewrite ?E; clear E
         | E : engine_config ?x = _ |- _ => rewrite ?E; clear E
         end.

Ltac solve_ready :=
  repeat match goal with
         | H : (_ <= _)%nat -> _ |- _ =>
             first [specialize (H ltac:(lia)) | clear H]
         end;
  unfold_stage; unfold_io;
  repeat match goal with
         | Q : ?x = None |- context [?x] => rewrite Q
         | Q : ?x = Some _ |- context [?x] => rewrite Q
         | Q : ?x = false |- context [?x] => rewrite Q
         end;
  simpl_state;
  repeat (break_match; simpl_state);
  try congruence;
  simpl_state; cbn [app];
  (split; [reflexivity | split; [reflexivity|]]);
  unfold ready, config_get; simpl_state; use_state_equations; simpl_state;
  repeat split; intros ?; try lia;
  rewrite ?lookup_insert_ne by discriminate;
  try assumption; try discriminate; try congruence.

(** With the hardware disconnected and the ungated collaborators
    answering without an error, every stage finds what it needs and
    succeeds; for [load_driver_config], the seventeenth, this needs a
    [config.configureDriver] that does not call back for a [null]
    driver. *)
Lemma stages_ready (w : World) :
  isConnected (machine_machine w) = false -> others_succeed w ->
  forall i n f s,
    nth_error (stages w) i = Some (n, f) ->
    (i = 16%nat -> configureDriver_null_calls_back w = false) ->
    ready w (0 + i) s ->
    threw (f s) = false /\ calls (f s) = [None] /\
    ready w (S (0 + i)) (after (f s)).
Proof.
  intros Hconn (Q1 & Q2 & Q3 & Q4 & Q5 & Q6 & Q7 & Q8 & Q9 & Q10)
         i n f s Hnth Hcb (H1 & H2 & H3 & H4).
  cbn [Nat.add] in *. unfold stages in Hnth.
  do 29 (destruct i as [|i];
         [injection Hnth as <- <-; try specialize (Hcb eq_refl); solve_ready
         | cbn [nth_error] in Hnth]).
  destruct i; discriminate.
Qed.

Lemma ready_at_start (w : World) (s : Sys) :
  or_empty (config_get "version" s) <> None -> ready w 0 s.
Proof.
  intros Hv. unfold ready. repeat split; intros; [assumption | lia | lia | lia].
Qed.

Lemma boot_succeeds (w : World) (s : Sys) :
  isConnected (machine_machine w) = false -> others_succeed w ->
  configureDriver_null_calls_back w = false ->
  or_empty (config_get "version" s) <> None ->
  exists s', succeed_all (stages w) s = Some s'.
Proof.
  intros Hconn Hq Hcb Hv.
  destruct (succeed_all_staged (ready w) (stages w) 0
              (fun i n f s Hnth =>
                 stages_ready w Hconn Hq i n f s Hnth (fun _ => Hcb)) s)
    as (s' & Hs' & _).
  - now apply ready_at_start.
  - now exists s'.
Qed.

(** Whatever [config.configureDriver] does with its callback, the sixteen
    stages before [load_driver_config] succeed, and leave the machine
    handle in place. *)
Lemma boot_reaches_driver_config (w : World) (s : Sys) :
  isConnected (machine_machine w) = false -> others_succeed w ->
  or_empty (config_get "version" s) <> None ->
  exists s1,
    succeed_all (firstn 16 (stages w)) s = Some s1 /\
    machine (engine s1) = Some (machine_machine w).
Proof.
  intros Hconn Hq Hv.
  destruct (succeed_all_staged (ready w) (firstn 16 (stages w)) 0) with (s := s)
    as (s1 & Hs1 & Hr).
  - intros i n f s0 Hnth. rewrite nth_error_firstn in Hnth.
    destruct (Nat.ltb i 16) eqn:Hi; [|discriminate].
    apply Nat.ltb_lt in Hi.
    apply (stages_ready w Hconn Hq i n f s0 Hnth). lia.
  - now apply ready_at_start.
  - exists s1. split; [exact Hs1|].
    destruct Hr as (_ & _ & Hm & _). apply Hm. cbn. lia.
Qed.

Lemma gated_stage_skips (w : World) (f : Stage) (s : Sys) :
  isConnected (machine_machine w) = false ->
  In f [set_units w; load_driver_config w; get_g2_version w;
        load_opensbp_commands w] ->
  machine (engine s) = Some (machine_machine w) ->
  threw (f s) = false /\
  hd_error (calls (f s)) = Some None /\
  List.Forall (eq None) (calls (f s)) /\
  engine (after (f s)) = engine s /\
  count is_hardware_call (trace (after (f s))) = count is_hardware_call (trace s).
Proof.
  intros Hconn Hin Hm.
  repeat (destruct Hin as [<-|Hin];
          [unfold_stage; rewrite Hm, Hconn; unfold callback;
           repeat break_match; simpl_state;
           repeat split; rewrite ?count_app; cbn; try lia;
           repeat constructor
          |]).
  destruct Hin.
Qed.

Lemma last_snoc {A} (l : list A) (x d : A) : List.last (l ++ [x]) d = x.
Proof. apply List.last_last. Qed.

(** An error that ends the boot with the hardware disconnected was not
    reported by one of the gated stages. *)
Lemma boot_error_not_gated (w : World) (s : Sys) (e : Err) :
  isConnected (machine_machine w) = false -> offline w s ->
  ending (series (stages w) s) = Finished (Some e) ->
  ~ In (List.last (ran (series (stages w) s)) "") gated_stages.
Proof.
  intros Hconn Hoff Hend.
  destruct (series_error_origin _ _ _ Hend)
    as (pre & name & f & post & s1 & Hst & Hpre & Hthrew & Hcall).
  rewrite Hst, (series_fails_at pre post name f s s1 e Hpre Hthrew Hcall).
  cbn [ran]. rewrite last_snoc.
  assert (Hoff1 : offline w s1).
  { pose proof (stages_offline w Hconn) as Hall. rewrite Hst in Hall.
    apply List.Forall_app in Hall as [Hall _].
    exact (succeed_all_preserves _ _ Hall _ _ Hpre Hoff). }
  assert (Hin : In (name, f) (stages w)) by (rewrite Hst; apply in_elt).
  clear Hst Hpre Hend. intros Hg. destruct Hoff1 as [_ Hm].
  unfold stages in Hin.
  repeat (destruct Hin as [Hin|Hin];
          [injection Hin as <- <-;
           first [ cbn in Hg; intuition discriminate
                 | revert Hthrew Hcall; unfold_stage;
                   destruct Hm as [->| ->]; rewrite ?Hconn;
                   unfold callback, throw; repeat break_match; cbn;
                   congruence ]
          |]).
  destruct Hin.
Qed.

(** C6.  Stage skip logic.  With [isConnected()] false: each of
    [set_units], [load_driver_config], [get_g2_version] and
    [load_opensbp_commands] returns, makes no hardware call, leaves the
    engine as it was and passes no error to its callback; no run of the
    boot makes a hardware call; and if the boot ends with an error, that
    error does not come from one of these stages.  Whether the boot
    completes depends on [load_driver_config].  When
    [config.configureDriver(null, cb)] does not invoke [cb], and the
    collaborators of the ungated stages answer without an error, the boot
    runs every stage and the callback of [start] is invoked once, with no
    error and the engine.  When it does invoke [cb], the stage calls back
    twice: the boot ends at [load_driver_config], the seventeenth stage,
    and the callback of [start] is never invoked. *)
Theorem disconnected_boot_skips_hardware (w : World) :
  isConnected (machine_machine w) = false ->
  (forall f s,
     In f [set_units w; load_driver_config w; get_g2_version w;
           load_opensbp_commands w] ->
     machine (engine s) = Some (machine_machine w) ->
     threw (f s) = false /\
     hd_error (calls (f s)) = Some None /\
     List.Forall (eq None) (calls (f s)) /\
     engine (after (f s)) = engine s /\
     count is_hardware_call (trace (after (f s))) =
     count is_hardware_call (trace s)) /\
  (forall cb s,
     offline w s ->
     count is_hardware_call (trace (end_state (start w cb s))) = 0%nat /\
     (forall e,
        ending (boot (start w cb s)) = Finished (Some e) ->
        ~ In (List.last (ran (boot (start w cb s))) "") gated_stages)) /\
  (forall s,
     configureDriver_null_calls_back w = false ->
     others_succeed w ->
     or_empty (config_get "version" s) <> None ->
     ran (boot (start w true s)) = map fst (stages w) /\
     terminal (start w true s) = [TOk (engine (end_state (start w true s)))]) /\
  (forall s,
     configureDriver_null_calls_back w = true ->
     others_succeed w ->
     or_empty (config_get "version" s) <> None ->
     ending (boot (start w true s)) = CalledTwice None /\
     ran (boot (start w true s)) = map fst (firstn 17 (stages w)) /\
     terminal (start w true s) = []).
Proof.
  intros Hconn. split; [|split; [|split]].
  - intros f s Hin Hm. now apply (gated_stage_skips w).
  - intros cb s Hoff.
    pose proof (series_preserves _ _ (stages_offline w Hconn) s Hoff) as [Hc _].
    assert (Hboot : boot (start w cb s) = series (stages w) s)
      by (unfold start; generalize (series (stages w) s) as r; intros r;
          now destruct (ending r) as [[e|]| | |[e|]]).
    split.
    + unfold start. revert Hc. generalize (series (stages w) s) as r.
      intros r Hc.
      destruct (ending r) as [[e|]| | |[e|]];
        cbn [end_state]; rewrite ?count_emit; cbn [is_hardware_call]; lia.
    + intros e. rewrite Hboot. intros Hend.
      exact (boot_error_not_gated w s e Hconn Hoff Hend).
  - intros s Hcb Hq Hv.
    destruct (boot_succeeds w s Hconn Hq Hcb Hv) as (s' & Hs').
    destruct (start_failure_contract_core w s s' Hs') as (Hr & Ht & He).
    rewrite Hr, Ht, He. split; reflexivity.
  - intros s Hcb Hq Hv.
    destruct (boot_reaches_driver_config w s Hconn Hq Hv) as (s1 & Hpre & Hm).
    pose proof (load_driver_config_disconnected w s1 _ Hm Hconn) as Hcalls.
    rewrite Hcb in Hcalls. cbn [app] in Hcalls.
    assert (Ht : threw (load_driver_config w s1) = false).
    { unfold load_driver_config, machine_isConnected. now rewrite Hm, Hconn. }
    pose proof (series_called_twice (firstn 16 (stages w))
                  (skipn 17 (stages w)) "load_driver_config"
                  (load_driver_config w) s s1 None None [] Hpre Ht Hcalls)
      as Hs.
    change (firstn 16 (stages w)
              ++ ("load_driver_config", load_driver_config w)
                   :: skipn 17 (stages w))%list
      with (stages w) in Hs.
    unfold start. rewrite Hs. cbn [ending boot ran terminal].
    repeat split.
Qed.

Lemma disconnected_boot_skips_hardware_witness :
  (count is_hardware_call
     (trace (end_state (start (Examples.box ∅ false None None None) true
                          (Examples.fresh ∅ ∅)))) = 0%nat /\
   ending (boot (start (Examples.box ∅ false None None None) true
                   (Examples.fresh ∅ ∅))) = CalledTwice None /\
   List.last (ran (boot (start (Examples.box ∅ false None None None) true
                          (Examples.fresh ∅ ∅)))) "" = "load_driver_config" /\
   terminal (start (Examples.box ∅ false None None None) true
               (Examples.fresh ∅ ∅)) = []) /\
  (length (ran (boot (start (Examples.silent_driver_config
                               (Examples.box ∅ false None None None)) true
                        (Examples.fresh ∅ ∅)))) = 29%nat /\
   exists this,
     terminal (start (Examples.silent_driver_config
                        (Examples.box ∅ false None None None)) true
                 (Examples.fresh ∅ ∅)) = [TOk this] /\
     firmware this = firmware new_Engine).
Proof.
  split.
  - pose proof (disconnected_boot_skips_hardware
                  (Examples.box ∅ false None None None) eq_refl)
      as (_ & Hb & _ & Hbug).
    destruct (Hbug (Examples.fresh ∅ ∅)) as (He & Hr & Ht);
      [reflexivity | repeat split | discriminate |].
    split; [|split; [exact He | split; [now rewrite Hr | exact Ht]]].
    refine (proj1 (Hb true (Examples.fresh ∅ ∅) _)).
    split; [reflexivity | left; reflexivity].
  - pose proof (disconnected_boot_skips_hardware
                  (Examples.silent_driver_config
                     (Examples.box ∅ false None None None)) eq_refl)
      as (_ & _ & Hs & _).
    destruct (Hs (Examples.fresh ∅ ∅)) as (Hr & Ht);
      [reflexivity | repeat split | discriminate |].
    split; [now rewrite Hr|].
    eexists. split; [exact Ht|]. vm_compute. reflexivity.
Defined.

(** *** The secret key *)

Lemma generate_auth_key_reuse (w : World) (s : Sys) (data : string) :
  secret_on_disk w s = Some data -> String.length data = 512%nat ->
  generate_auth_key w s =
  callback None
    (with_engine (set_auth_secret (Some data) (engine s))
       (emit (ReadFile (secret_file w)) s)).
Proof.
  unfold secret_on_disk, generate_auth_key, readFile. intros Hd Hlen.
  destruct (read_fails w (secret_file w)); [discriminate|].
  cbn [emit files]. rewrite Hd, Hlen.
  destruct data; [discriminate | reflexivity].
Qed.

Lemma generate_auth_key_fresh (w : World) (s : Sys) :
  (forall data, secret_on_disk w s = Some data -> String.length data <> 512%nat) ->
  generate_auth_key w s =
  callback None
    (fst (writeFile w (secret_file w) (hex (randomBytes w 256))
            (with_engine
               (set_auth_secret (Some (hex (randomBytes w 256))) (engine s))
               (emit (RandomBytes 256) (emit (ReadFile (secret_file w)) s))))).
Proof.
  unfold secret_on_disk, generate_auth_key, readFile. intros Hd.
  assert (Hw : forall s' : Sys,
    (let (s0, _) := writeFile w (secret_file w) (hex (randomBytes w 256)) s'
     in callback None s0) =
    callback None (fst (writeFile w (secret_file w) (hex (randomBytes w 256)) s')))
    by (intros s'; now destruct (writeFile _ _ _ s')).
  destruct (read_fails w (secret_file w)); [apply Hw|].
  cbn [emit files].
  destruct (files s !! secret_file w) as [data|]; [|apply Hw].
  specialize (Hd data eq_refl). apply Nat.eqb_neq in Hd. rewrite Hd.
  rewrite andb_false_r. apply Hw.
Qed.

(** C3.  [generate_auth_key].  A secret that reads back with length 512 is
    adopted as it is, and the disk is neither written nor changed.  In
    every other case (the read fails, the file is empty or of another
    length) the key is the hex form of the 256 bytes that
    [crypto.randomBytes(256)] returned: 512 hexadecimal characters, two per
    byte, from which those bytes read back; it is written back with one
    [fs.writeFile] and adopted.  Either way the stage issues at most one
    write. *)
Theorem generate_auth_key_provision (w : World) (s : Sys) :
  let r := generate_auth_key w s in
  (forall data,
     secret_on_disk w s = Some data -> String.length data = 512%nat ->
     auth_secret (engine (after r)) = Some data /\
     files (after r) = files s /\
     count is_WriteFile (trace (after r)) = count is_WriteFile (trace s)) /\
  ((forall data, secret_on_disk w s = Some data -> String.length data <> 512%nat) ->
   length (randomBytes w 256) = 256%nat ->
   exists key,
     key = hex (randomBytes w 256) /\
     unhex key = Some (randomBytes w 256) /\
     String.length key = 512%nat /\ all_chars is_hex_digit key = true /\
     auth_secret (engine (after r)) = Some key /\
     trace (after r) =
       (trace s ++ [ReadFile (secret_file w); RandomBytes 256;
                    WriteFile (secret_file w) key])%list /\
     (write_fails w (secret_file w) = None ->
      files (after r) !! secret_file w = Some key)) /\
  (count is_WriteFile (trace (after r)) <= count is_WriteFile (trace s) + 1)%nat.
Proof.
  intros r. subst r. split; [|split].
  - intros data Hd Hlen. rewrite (generate_auth_key_reuse w s data Hd Hlen).
    cbn [callback after with_engine engine files trace emit set_auth_secret auth_secret].
    repeat split. rewrite count_app. cbn. lia.
  - intros Hd Hrnd. rewrite (generate_auth_key_fresh w s Hd).
    exists (hex (randomBytes w 256)). cbn [callback after].
    rewrite writeFile_trace, writeFile_engine.
    split; [reflexivity|]. split; [apply unhex_hex|].
    repeat split.
    + rewrite hex_length, Hrnd. reflexivity.
    + apply hex_digits.
    + cbn. now rewrite <- !app_assoc.
    + intros Hw. unfold writeFile. rewrite Hw. cbn. apply lookup_insert_eq.
  - destruct (secret_on_disk w s) as [data|] eqn:Hd.
    + destruct (Nat.eq_dec (String.length data) 512%nat) as [Hlen|Hlen].
      * rewrite (generate_auth_key_reuse w s data Hd Hlen).
        cbn [callback after with_engine trace emit]. rewrite count_app. cbn. lia.
      * rewrite (generate_auth_key_fresh w s)
          by (intros d' Hd'; congruence).
        cbn [callback after]. rewrite writeFile_trace.
        cbn [with_engine trace emit]. rewrite !count_app. cbn. lia.
    + rewrite (generate_auth_key_fresh w s) by (intros d' Hd'; congruence).
      cbn [callback after]. rewrite writeFile_trace.
      cbn [with_engine trace emit]. rewrite !count_app. cbn. lia.
Qed.

Lemma generate_auth_key_provision_witness :
  (let w := Examples.box ∅ true None None None in
   let s := Examples.fresh ∅ (Examples.disk_with_secret Examples.stored_key) in
   auth_secret (engine (after (generate_auth_key w s))) = Some Examples.stored_key /\
   files (after (generate_auth_key w s)) = files s) /\
  (let w := Examples.box ∅ true None None None in
   let s := Examples.fresh ∅ ∅ in
   auth_secret (engine (after (generate_auth_key w s)))
   = Some Examples.fresh_key /\
   files (after (generate_auth_key w s)) !! "/opt/fabmo/config/auth_secret"
   = Some Examples.fresh_key /\
   unhex Examples.fresh_key = Some (repeat Byte.xa5 256)).
Proof.
  split.
  - intros w s.
    destruct (generate_auth_key_provision w s) as [H _].
    destruct (H Examples.stored_key eq_refl eq_refl) as (Ha & Hf & _).
    split; assumption.
  - intros w s.
    destruct (generate_auth_key_provision w s) as (_ & H & _).
    destruct H as (key & Hkey & Hbytes & _ & _ & Ha & _ & Hf);
      [intros data Hd; discriminate Hd | reflexivity |].
    assert (Hk : key = Examples.fresh_key) by (rewrite Hkey; reflexivity).
    rewrite Hk in Ha, Hf, Hbytes.
    split; [exact Ha|]. split; [exact (Hf eq_refl) | exact Hbytes].
Defined.

(** C10.  [generate_auth_key] cannot fail the boot.  Whatever the file
    system answers, the stage returns and calls back once without an
    error.  When the key is generated and writing it fails, the engine
    still holds a key of 512 hexadecimal characters, and the disk is as it
    was before: the key lives in memory only. *)
Theorem generate_auth_key_never_fails (w : World) (s : Sys) :
  let r := generate_auth_key w s in
  calls r = [None] /\ threw r = false /\
  (forall e,
     write_fails w (secret_file w) = Some e ->
     (forall data, secret_on_disk w s = Some data -> String.length data <> 512%nat) ->
     length (randomBytes w 256) = 256%nat ->
     exists key,
       auth_secret (engine (after r)) = Some key /\
       String.length key = 512%nat /\ all_chars is_hex_digit key = true /\
       files (after r) = files s).
Proof.
  intros r. subst r.
  assert (Hcalls : calls (generate_auth_key w s) = [None] /\
                   threw (generate_auth_key w s) = false).
  { destruct (secret_on_disk w s) as [data|] eqn:Hd.
    - destruct (Nat.eq_dec (String.length data) 512%nat) as [Hlen|Hlen].
      + now rewrite (generate_auth_key_reuse w s data Hd Hlen).
      + now rewrite (generate_auth_key_fresh w s)
          by (intros d' Hd'; congruence).
    - now rewrite (generate_auth_key_fresh w s) by (intros d' Hd'; congruence). }
  destruct Hcalls as [Hc Ht]. repeat split; try assumption.
  intros e Hw Hd Hrnd. rewrite (generate_auth_key_fresh w s Hd).
  exists (hex (randomBytes w 256)). cbn [callback after].
  rewrite writeFile_engine. repeat split.
  - rewrite hex_length, Hrnd. reflexivity.
  - apply hex_digits.
  - unfold writeFile. rewrite Hw. reflexivity.
Qed.

Lemma generate_auth_key_never_fails_witness :
  let w := Examples.box ∅ true None None (Some "EROFS") in
  let s := Examples.fresh ∅ (Examples.disk_with_secret "abc") in
  calls (generate_auth_key w s) = [None] /\
  exists key,
    auth_secret (engine (after (generate_auth_key w s))) = Some key /\
    String.length key = 512%nat /\
    files (after (generate_auth_key w s)) = Examples.disk_with_secret "abc".
Proof.
  intros w s.
  destruct (generate_auth_key_never_fails w s) as (Hc & _ & H).
  split; [exact Hc|].
  destruct (H "EROFS" eq_refl) as (key & Ha & Hlen & _ & Hf).
  - intros data Hd. injection Hd as <-. discriminate.
  - reflexivity.
  - exists key. repeat split; assumption.
Defined.

(** *** 404 routing *)

Lemma split_segment (x t : string) :
  no_slash x -> split "/" (x ++ String "/" t) = x :: split "/" t.
Proof.
  unfold no_slash. induction x as [|c x IH]; simpl; [reflexivity|].
  intros H. apply andb_true_iff in H as [Hc Hx].
  apply negb_true_iff in Hc. rewrite Hc, (IH Hx). reflexivity.
Qed.

Lemma split_last (x : string) : no_slash x -> split "/" x = [x].
Proof.
  unfold no_slash. induction x as [|c x IH]; simpl; [reflexivity|].
  intros H. apply andb_true_iff in H as [Hc Hx].
  apply negb_true_iff in Hc. rewrite Hc, (IH Hx). reflexivity.
Qed.

Lemma split_path_of (x : string) (segs : list string) :
  Forall no_slash (x :: segs) -> split "/" (path_of (x :: segs)) = x :: segs.
Proof.
  revert x. induction segs as [|y segs IH]; intros x H.
  - apply split_last. now inversion H.
  - inversion H as [|? ? Hx Hrest]; subst.
    change (path_of (x :: y :: segs)) with (x ++ String "/" (path_of (y :: segs))).
    rewrite split_segment by assumption. now rewrite IH.
Qed.

Lemma strict_ne_spec (seg : string) (current : option jsval) :
  strict_ne (Some seg) current = true <-> current <> Some (JStr seg).
Proof.
  destruct current as [[v| |]|]; simpl; try (split; [discriminate|reflexivity]).
  rewrite negb_true_iff. destruct (String.eqb_spec seg v) as [->|Hne].
  - split; [discriminate | intros H; now elim H].
  - split; [intros _ [=]; congruence | reflexivity].
Qed.

(** The spec's two examples. *)
Example NotFound_stale_version :
  NotFound {["version" := JStr "ABC"]} "/XYZ/app/foo" = Redirect "/ABC/app/foo".
Proof. vm_compute. reflexivity. Qed.

Example NotFound_bogus_resource :
  NotFound {["version" := JStr "ABC"]} "/ABC/bogus" = Redirect "/".
Proof. vm_compute. reflexivity. Qed.

(** C4.  Not-found routing.  For a request URL made of the segments
    [pre / seg / rest...] ([pre] is empty for a URL that starts with a
    slash, so [seg] is the element after the leading slash): when [seg]
    differs from the persisted version, the handler redirects to the same
    URL with [seg] replaced by the persisted version; when [seg] is the
    persisted version, it redirects to [/].  Whatever the URL, the answer is
    a redirect, never a bare status. *)
Theorem NotFound_redirects
    (cfg : gmap string jsval) (pre seg : string) (rest : list string) :
  Forall no_slash (pre :: seg :: rest) ->
  let url := path_of (pre :: seg :: rest) in
  (cfg !! "version" <> Some (JStr seg) ->
   NotFound cfg url =
   Redirect (join "/" (Some (JStr pre) :: cfg !! "version"
                         :: map (fun x => Some (JStr x)) rest))) /\
  (forall v, cfg !! "version" = Some (JStr v) -> v <> seg ->
   NotFound cfg url = Redirect (path_of (pre :: v :: rest))) /\
  (cfg !! "version" = Some (JStr seg) -> NotFound cfg url = Redirect "/") /\
  (forall any_url, exists location, NotFound cfg any_url = Redirect location).
Proof.
  intros Hsegs url.
  assert (Hsplit : split "/" url = pre :: seg :: rest)
    by (apply split_path_of; assumption).
  assert (Hdiff : cfg !! "version" <> Some (JStr seg) ->
            NotFound cfg url =
            Redirect (join "/" (Some (JStr pre) :: cfg !! "version"
                                  :: map (fun x => Some (JStr x)) rest))).
  { intros Hne. unfold NotFound. rewrite Hsplit. cbn [nth_error].
    apply strict_ne_spec in Hne. rewrite Hne. reflexivity. }
  repeat split.
  - exact Hdiff.
  - intros v Hv Hne. rewrite Hdiff; [now rewrite Hv | rewrite Hv; congruence].
  - intros Heq. unfold NotFound. rewrite Hsplit. cbn [nth_error].
    destruct (strict_ne (Some seg) (cfg !! "version")) eqn:E; [|reflexivity].
    apply strict_ne_spec in E. contradiction.
  - intros any_url. unfold NotFound.
    destruct (strict_ne _ _); eexists; reflexivity.
Qed.

Lemma NotFound_redirects_witness :
  NotFound {["version" := JStr "ABC"]} (path_of [""; "XYZ"; "app"; "foo"]) =
  Redirect (path_of [""; "ABC"; "app"; "foo"]).
Proof.
  refine (proj1 (proj2 (NotFound_redirects {["version" := JStr "ABC"]}
                          "" "XYZ" ["app"; "foo"] _)) "ABC" _ _).
  - repeat constructor.
  - reflexivity.
  - discriminate.
Defined.

End EngineSpec.

(** ** The dashboard's message relay *)

Module DashboardSpec.
Import JS Dashboard.

Lemma hasClass_addClass (c : string) (d : Dashboard) :
  hasClass c (addClass c d) = true.
Proof.
  unfold addClass. destruct (hasClass c d) eqn:E; [exact E|].
  unfold hasClass. cbn [with_main_classes main_classes].
  rewrite existsb_app. cbn. rewrite String.eqb_refl.
  now rewrite orb_true_r.
Qed.

Lemma hasClass_removeClass (c : string) (d : Dashboard) :
  hasClass c (removeClass c d) = false.
Proof.
  unfold hasClass, removeClass. cbn [with_main_classes main_classes].
  induction (main_classes d) as [|x l IH]; [reflexivity|].
  cbn [List.filter]. destruct (String.eqb c x) eqn:E; cbn [negb]; [exact IH|].
  cbn [existsb]. now rewrite E, IH.
Qed.

Lemma hasClass_emit (c : string) (e : Event) (d : Dashboard) :
  hasClass c (emit e d) = hasClass c d.
Proof. reflexivity. Qed.

Lemma openRightMenu_opens (d : Dashboard) :
  hasClass "offcanvas-overlap-left" (result (openRightMenu d)) = true.
Proof.
  unfold openRightMenu.
  pose proof (hasClass_addClass "offcanvas-overlap-left" d) as H.
  destruct (machine _); [destruct (ui _)|]; exact H.
Qed.

Lemma closeRightMenu_closes (d : Dashboard) :
  hasClass "offcanvas-overlap-left" (result (closeRightMenu d)) = false.
Proof.
  unfold closeRightMenu.
  pose proof (hasClass_removeClass "offcanvas-overlap-left" d) as H.
  destruct (machine _); [destruct (ui _)|]; exact H.
Qed.

Lemma addClass_frame (c : string) (d : Dashboard) :
  machine (addClass c d) = machine d /\
  ui (addClass c d) = ui d /\
  refresh (addClass c d) = refresh d /\
  trace (addClass c d) = trace d.
Proof. unfold addClass. now destruct (hasClass c d). Qed.

(** C8.  [getMachine].  When a machine handle is set, a message with
    [getMachine === true] (and neither [showDRO] nor [job]) makes the
    relay post exactly one message; it is posted to [e.source], and its
    payload has the two properties [ip] and [port], read from the handle,
    and no other.  Nothing else of the dashboard changes. *)
Theorem getMachine_replies_to_source
    (add_job_err : option string) (e : MessageEvent) (d : Dashboard) (m : Handle) :
  getMachine (data e) = Some (JBool true) ->
  showDRO (data e) = None ->
  job (data e) = None ->
  machine d = Some m ->
  let r := on_message add_job_err e d in
  exists msg : Obj,
    thrown r = false /\
    posts (result r) = (posts d ++ [PostMessage (source e) msg "*"])%list /\
    dom msg = ({["ip"; "port"]} : gset string) /\
    msg !! "ip" = Some (m !! "ip") /\
    msg !! "port" = Some (m !! "port") /\
    machine (result r) = machine d /\
    ui (result r) = ui d /\
    main_classes (result r) = main_classes d.
Proof.
  intros Hg Hs Hj Hm r. subst r. unfold on_message.
  rewrite Hs, Hj, Hg, Hm.
  rewrite !bool_decide_eq_false_2 by discriminate.
  rewrite bool_decide_eq_true_2 by reflexivity.
  exists (<["port" := m !! "port"]> (<["ip" := m !! "ip"]> (∅ : Obj))).
  cbn [ret result thrown emit machine ui main_classes].
  unfold Obj, Handle in *.
  split; [reflexivity|]. split.
  { unfold posts. cbn [trace emit]. rewrite !List.filter_app.
    cbn [List.filter is_PostMessage]. now rewrite app_nil_r. }
  split.
  { rewrite !dom_insert_L, dom_empty_L. set_solver. }
  split.
  { rewrite lookup_insert_ne by discriminate. apply lookup_insert_eq. }
  split; [apply lookup_insert_eq|].
  split; [exact Hm|]. split; reflexivity.
Qed.

Lemma getMachine_replies_to_source_witness :
  exists msg : Obj,
    posts (result (on_message None
                     {| source := 3%nat;
                        data := {| showDRO := None; job := None;
                                   getMachine := Some (JBool true) |} |}
                     {| machine := Some (<["ip" := JStr "192.168.1.7"]>
                                          (<["port" := JNum 80]>
                                           (<["token" := JStr "s3cret"]> ∅)));
                        ui := None; refresh := 500;
                        main_classes := []; trace := [] |}))
    = [PostMessage 3%nat msg "*"] /\
    dom msg = ({["ip"; "port"]} : gset string).
Proof.
  destruct (getMachine_replies_to_source None
              {| source := 3%nat;
                 data := {| showDRO := None; job := None;
                            getMachine := Some (JBool true) |} |}
              {| machine := Some (<["ip" := JStr "192.168.1.7"]>
                                   (<["port" := JNum 80]>
                                    (<["token" := JStr "s3cret"]> ∅)));
                 ui := None; refresh := 500;
                 main_classes := []; trace := [] |}
              _ eq_refl eq_refl eq_refl eq_refl)
    as (msg & _ & Hp & Hd & _).
  exists msg. split; [exact Hp | exact Hd].
Defined.

(** The claim as worded holds for every message; on a dashboard that has
    no machine handle yet (as [new Dashboard()] leaves it) the listener
    throws and posts nothing. *)
Lemma getMachine_without_machine_no_reply :
  let r := on_message None
             {| source := 3%nat;
                data := {| showDRO := None; job := None;
                           getMachine := Some (JBool true) |} |}
             (new_Dashboard []) in
  thrown r = true /\ posts (result r) = [].
Proof. split; reflexivity. Qed.

(** C9.  [showDRO].  [showDRO === true] leaves [#main] with the class
    [offcanvas-overlap-left] (the panel is open), [showDRO === false]
    leaves it without (the panel is closed), whether or not a machine
    handle is set.  With no machine handle the [ui] object is not told:
    the only things done are the class change and [resizedoc()]. *)
Theorem showDRO_opens_and_closes
    (add_job_err : option string) (e : MessageEvent) (d : Dashboard) :
  let r := on_message add_job_err e d in
  (showDRO (data e) = Some (JBool true) ->
   hasClass "offcanvas-overlap-left" (result r) = true) /\
  (showDRO (data e) = Some (JBool false) ->
   hasClass "offcanvas-overlap-left" (result r) = false) /\
  (machine d = None ->
   showDRO (data e) = Some (JBool true) \/ showDRO (data e) = Some (JBool false) ->
   thrown r = false /\
   machine (result r) = None /\ ui (result r) = ui d /\
   refresh (result r) = refresh d /\
   trace (result r) = (trace d ++ [ResizeDoc])%list).
Proof.
  intros r. subst r. unfold on_message. split; [|split].
  - intros ->. rewrite bool_decide_eq_true_2 by reflexivity.
    apply openRightMenu_opens.
  - intros ->. rewrite bool_decide_eq_false_2 by discriminate.
    rewrite bool_decide_eq_true_2 by reflexivity.
    apply closeRightMenu_closes.
  - intros Hm [-> | ->].
    + rewrite bool_decide_eq_true_2 by reflexivity.
      unfold openRightMenu.
      destruct (addClass_frame "offcanvas-overlap-left" d) as (Em & Eu & Er & Et).
      rewrite Em, Hm. cbn [ret result thrown emit machine ui refresh trace].
      rewrite Em, Eu, Er, Et. repeat split. exact Hm.
    + rewrite bool_decide_eq_false_2 by discriminate.
      rewrite bool_decide_eq_true_2 by reflexivity.
      unfold closeRightMenu, removeClass.
      cbn [with_main_classes machine]. rewrite Hm.
      cbn [ret result thrown emit machine ui refresh trace]. repeat split.
      exact Hm.
Qed.

Lemma showDRO_opens_and_closes_witness :
  let e := {| source := 3%nat;
              data := {| showDRO := Some (JBool true); job := None;
                         getMachine := None |} |} in
  hasClass "offcanvas-overlap-left"
    (result (on_message None e (new_Dashboard ["row"]))) = true /\
  trace (result (on_message None e (new_Dashboard ["row"]))) = [ResizeDoc].
Proof.
  intros e.
  destruct (showDRO_opens_and_closes None e (new_Dashboard ["row"]))
    as (Ho & _ & Hn).
  split; [exact (Ho eq_refl)|].
  destruct (Hn eq_refl (or_introl eq_refl)) as (_ & _ & _ & _ & Ht).
  exact Ht.
Defined.

(** The claim as worded makes the message a no-op when no machine handle
    is set; the page is changed all the same. *)
Lemma showDRO_without_machine_changes_page :
  let e := {| source := 3%nat;
              data := {| showDRO := Some (JBool true); job := None;
                         getMachine := None |} |} in
  machine (new_Dashboard []) = None /\
  main_classes (new_Dashboard []) = [] /\
  main_classes (result (on_message None e (new_Dashboard []))) =
    ["offcanvas-overlap-left"] /\
  result (on_message None e (new_Dashboard [])) <> new_Dashboard [].
Proof. repeat split. discriminate. Qed.

End DashboardSpec.

(** ** More of the engine *)

Module EngineProps.
Import JS JSFacts Engine EngineSpec.

(** *** [trim] *)

Lemma trimStart_length (s : string) :
  (String.length (trimStart s) <= String.length s)%nat.
Proof.
  induction s as [|c r IH]; [apply Nat.le_refl|].
  cbn [trimStart]. destruct (is_white_space c); cbn [String.length]; lia.
Qed.

Lemma trimEnd_idempotent (s : string) : trimEnd (trimEnd s) = trimEnd s.
Proof.
  induction s as [|c r IH]; [reflexivity|].
  cbn [trimEnd].
  destruct (is_white_space c && String.eqb (trimEnd r) "") eqn:E;
    [reflexivity|].
  cbn [trimEnd]. now rewrite IH, E.
Qed.

Lemma trimStart_trimEnd (s : string) :
  trimStart (trimEnd (trimStart s)) = trimEnd (trimStart s).
Proof.
  induction s as [|c r IH]; [reflexivity|].
  cbn [trimStart]. destruct (is_white_space c) eqn:E; [exact IH|].
  cbn [trimEnd]. rewrite E. cbn [andb trimStart]. now rewrite E.
Qed.

Lemma trim_idempotent (s : string) : trim (trim s) = trim s.
Proof. unfold trim. now rewrite trimStart_trimEnd, trimEnd_idempotent. Qed.

Lemma build_identity_trimmed (v : Version) :
  trim (build_identity v) = build_identity v.
Proof. apply trim_idempotent. Qed.

(** *** First-time configuration *)

(** X1.  [check_engine_config] runs the first-time configuration at most
    once: it always calls back without an error and leaves [init] truthy;
    on a configuration whose [init] is truthy it changes nothing, so
    running the stage again after itself is a no-op. *)
Theorem check_engine_config_once (w : World) (s : Sys) :
  calls (check_engine_config w s) = [None] /\
  threw (check_engine_config w s) = false /\
  truthy (config_get "init" (after (check_engine_config w s))) = true /\
  (truthy (config_get "init" s) = true ->
   after (check_engine_config w s) = s) /\
  check_engine_config w (after (check_engine_config w s)) =
  callback None (after (check_engine_config w s)).
Proof.
  assert (Hinit : truthy (config_get "init" (after (check_engine_config w s))) = true).
  { unfold check_engine_config.
    destruct (truthy (config_get "init" s)) eqn:E; cbn [negb callback after].
    - exact E.
    - now rewrite config_get_set. }
  repeat split.
  - unfold check_engine_config. now destruct (negb _).
  - unfold check_engine_config. now destruct (negb _).
  - exact Hinit.
  - intros E. unfold check_engine_config. now rewrite E.
  - unfold check_engine_config at 1. now rewrite Hinit.
Qed.

Lemma check_engine_config_once_witness :
  after (check_engine_config (Examples.box ∅ true None None None)
           (Examples.fresh {["init" := JBool true]} ∅))
  = Examples.fresh {["init" := JBool true]} ∅.
Proof.
  exact (proj1 (proj2 (proj2 (proj2
           (check_engine_config_once (Examples.box ∅ true None None None)
              (Examples.fresh {["init" := JBool true]} ∅))))) eq_refl).
Defined.

Lemma config_get_update2 (k k1 k2 : string) (v1 v2 : jsval) (s : Sys) :
  k <> k1 -> k <> k2 ->
  config_get k (config_update [(k1, v1); (k2, v2)] s) = config_get k s.
Proof.
  intros H1 H2. unfold config_get, config_update. cbn.
  now rewrite !lookup_insert_ne by congruence.
Qed.

(** X2.  [EngineConfigFirstTime] writes only the port keys of its
    platform; the engine object and the disk are left alone.  On Linux both
    Linux ports become [/dev/ttyACM0] and every other key keeps its value.
    On macOS the server port becomes 9876; with no matching device every
    other key keeps its value; with devices the control port is the first
    one, the data port the second one (the first one when there is no
    second, or its name is empty), and every key other than these three
    keeps its value.  On any other platform nothing at all changes. *)
Theorem EngineConfigFirstTime_platforms (w : World) (s : Sys) :
  let s' := EngineConfigFirstTime w s in
  engine s' = engine s /\ files s' = files s /\
  (PLATFORM w = "linux" ->
   config_get "control_port_linux" s' = Some (JStr "/dev/ttyACM0") /\
   config_get "data_port_linux" s' = Some (JStr "/dev/ttyACM0") /\
   (forall k,
      k <> "control_port_linux" -> k <> "data_port_linux" ->
      config_get k s' = config_get k s)) /\
  (PLATFORM w = "darwin" ->
   config_get "server_port" s' = Some (JNum 9876) /\
   (glob_files w = [] ->
    forall k, k <> "server_port" -> config_get k s' = config_get k s) /\
   (forall f0 rest, glob_files w = f0 :: rest ->
    config_get "control_port_osx" s' = Some (JStr f0) /\
    config_get "data_port_osx" s' =
      Some (JStr match rest with f1 :: _ => str_or f1 f0 | [] => f0 end) /\
    (forall k,
       k <> "server_port" -> k <> "control_port_osx" ->
       k <> "data_port_osx" ->
       config_get k s' = config_get k s))) /\
  (PLATFORM w <> "linux" -> PLATFORM w <> "darwin" -> s' = s).
Proof.
  intros s'. subst s'. unfold EngineConfigFirstTime.
  split; [|split; [|split; [|split]]].
  - repeat break_match; reflexivity.
  - repeat break_match; reflexivity.
  - intros ->. cbn [String.eqb Ascii.eqb Bool.eqb]. split; [|split].
    + unfold config_get, config_update. cbn.
      now rewrite lookup_insert_ne, lookup_insert_eq by discriminate.
    + unfold config_get, config_update. cbn. now rewrite lookup_insert_eq.
    + intros k H1 H2. now apply config_get_update2.
  - intros ->. cbn [String.eqb Ascii.eqb Bool.eqb]. split; [|split].
    + destruct (glob_files w) as [|f0 rest];
        (rewrite ?config_get_update2, ?config_get_emit by discriminate);
        apply config_get_set.
    + intros -> k Hk. now rewrite config_get_emit, config_get_set_ne.
    + intros f0 rest ->. split; [|split].
      * unfold config_get, config_update. cbn.
        now rewrite lookup_insert_ne, lookup_insert_eq by discriminate.
      * unfold config_get, config_update. cbn. now rewrite lookup_insert_eq.
      * intros k H1 H2 H3.
        now rewrite config_get_update2, config_get_emit, config_get_set_ne.
  - intros Hl Hd. apply String.eqb_neq in Hl, Hd. now rewrite Hl, Hd.
Qed.

Lemma EngineConfigFirstTime_platforms_witness :
  let s := Examples.fresh {["server_port" := JNum 80]} ∅ in
  let s' := EngineConfigFirstTime (Examples.box ∅ true None None None) s in
  config_get "control_port_linux" s' = Some (JStr "/dev/ttyACM0") /\
  config_get "server_port" s' = Some (JNum 80) /\
  config_get "control_port_osx" s' = None.
Proof.
  intros s s'.
  destruct (EngineConfigFirstTime_platforms
              (Examples.box ∅ true None None None) s)
    as (_ & _ & Hlinux & _).
  destruct (Hlinux eq_refl) as (Hc & _ & Hframe).
  split; [exact Hc|]. split.
  - exact (Hframe "server_port" ltac:(discriminate) ltac:(discriminate)).
  - exact (Hframe "control_port_osx" ltac:(discriminate) ltac:(discriminate)).
Defined.

(** *** The profile shim *)

(** X3.  [profile_shim].  With a truthy [profile] the stage reads nothing
    and changes nothing.  Otherwise it stores as [profile] the content of
    [../site/.default] (an empty file gives the empty profile) or, when the
    file cannot be read, ["Default"]; it touches no other key, and what it
    hands to its callback is the answer of [config.engine.set]. *)
Theorem profile_shim_default (w : World) (s : Sys) :
  (truthy (config_get "profile" s) = true ->
   profile_shim w s = callback None s) /\
  (truthy (config_get "profile" s) = false ->
   let r := profile_shim w s in
   calls r = [set_profile w] /\ threw r = false /\
   engine (after r) = engine s /\ files (after r) = files s /\
   (forall k, k <> "profile" -> config_get k (after r) = config_get k s) /\
   (forall content,
      read_fails w "../site/.default" = None ->
      files s !! "../site/.default" = Some content ->
      config_get "profile" (after r) = Some (JStr content)) /\
   (read_fails w "../site/.default" <> None \/
    files s !! "../site/.default" = None ->
    config_get "profile" (after r) = Some (JStr "Default"))).
Proof.
  split.
  - intros E. unfold profile_shim. now rewrite E.
  - intros E r. subst r. unfold profile_shim. rewrite E.
    unfold readFile. cbn [emit files].
    destruct (read_fails w "../site/.default") as [e|] eqn:Hr;
      [|destruct (files s !! "../site/.default") as [c|] eqn:Hf];
      cbn [callback calls threw after];
      (split; [reflexivity|]); (split; [reflexivity|]);
      (split; [reflexivity|]); (split; [reflexivity|]);
      (split; [intros k Hk; now rewrite config_get_set_ne by congruence|]);
      rewrite config_get_set; split; try congruence; intuition congruence.
Qed.

Lemma profile_shim_default_witness :
  config_get "profile"
    (after (profile_shim (Examples.box ∅ true None None None)
              (Examples.fresh ∅ {["../site/.default" := "handibot"]})))
  = Some (JStr "handibot").
Proof.
  destruct (profile_shim_default (Examples.box ∅ true None None None)
              (Examples.fresh ∅ {["../site/.default" := "handibot"]}))
    as [_ H].
  destruct (H eq_refl) as (_ & _ & _ & _ & _ & Hc & _).
  exact (Hc "handibot" eq_refl eq_refl).
Defined.

(** *** The engine version *)

(** X4.  [getVersion] and the build identity.  The hash is the trimmed
    output of [git rev-parse] (empty when git gave nothing) and the debug
    flag is ['debug' in argv].  A number is only ever set together with
    the type ['release'].  The identity [clear_approot] compares with is
    the hash whenever the hash is not empty, whatever [version.json] says,
    and the trimmed number otherwise. *)
Theorem getVersion_identity (w : World) (s : Sys) :
  let v := snd (getVersion w s) in
  hash v = trim (match git_rev_parse w with Some d => d | None => "" end) /\
  debug v = debug_in_argv w /\
  (number v <> "" -> vtype v = Some "release") /\
  (hash v <> "" -> build_identity v = hash v) /\
  (hash v = "" -> build_identity v = trim (number v)).
Proof.
  intros v.
  assert (Hh : hash v =
               trim (match git_rev_parse w with Some d => d | None => "" end) /\
               debug v = debug_in_argv w /\
               (number v <> "" -> vtype v = Some "release")).
  { subst v. unfold getVersion.
    destruct (readFile w "version.json" _) as [s' [e|data]]; cbn [snd].
    - repeat split. intros H. now elim H.
    - destruct (JSON_parse w data) as [|[n|]]; repeat split;
        intros H; now elim H. }
  destruct Hh as (Hh & Hd & Hn). repeat split; try assumption.
  - intros Hne. unfold build_identity, str_or.
    apply String.eqb_neq in Hne. rewrite Hne, Hh. apply trim_idempotent.
  - intros He. unfold build_identity, str_or. rewrite He. cbn [String.eqb].
    now destruct (String.eqb (number v) "") eqn:E;
      [apply String.eqb_eq in E; rewrite E|].
Qed.

Lemma getVersion_identity_witness :
  build_identity
    (snd (getVersion (Examples.box ∅ true None None None) (Examples.fresh ∅ ∅)))
  = "0a1b2c3".
Proof.
  destruct (getVersion_identity (Examples.box ∅ true None None None)
              (Examples.fresh ∅ ∅)) as (Hh & _ & _ & Hi & _).
  rewrite Hi; [rewrite Hh; reflexivity | rewrite Hh; discriminate].
Defined.

(** What [clear_approot] leaves behind outside debug mode. *)
Lemma clear_approot_settled (w : World) (s : Sys) :
  debug_in_argv w = false ->
  threw (clear_approot w s) = false ->
  exists v stored,
    version (engine s) = Some v /\
    engine (after (clear_approot w s)) = engine s /\
    hd_error (calls (clear_approot w s)) = Some None /\
    or_empty (config_get "version" (after (clear_approot w s))) = Some stored /\
    trim stored = build_identity v.
Proof.
  intros Hd. unfold clear_approot. rewrite Hd.
  destruct (or_empty (config_get "version" s)) as [last|] eqn:Hl;
    [|discriminate].
  destruct (version (engine s)) as [v|] eqn:Hv; [|discriminate].
  fold (build_identity v). intros _.
  destruct (String.eqb (trim last) (build_identity v)) eqn:E; cbn [negb].
  - exists v, last. apply String.eqb_eq in E. cbn [callback after calls hd_error].
    repeat split; assumption.
  - exists v, (build_identity v). cbn [callback after calls hd_error].
    repeat split.
    + now destruct (clearAppRoot w).
    + rewrite config_get_log_if, config_get_set. reflexivity.
    + apply build_identity_trimmed.
Qed.

(** X5.  The version gate settles.  Outside debug mode, whenever
    [clear_approot] returns, the stored version, trimmed, is the build
    identity of [this.version]; the engine object is untouched; and running
    the stage again on the state it left is a no-op: nothing is cleared or
    stored a second time. *)
Theorem clear_approot_idempotent (w : World) (s : Sys) :
  debug_in_argv w = false ->
  threw (clear_approot w s) = false ->
  let s' := after (clear_approot w s) in
  (exists v stored,
     version (engine s') = Some v /\
     or_empty (config_get "version" s') = Some stored /\
     trim stored = build_identity v) /\
  engine s' = engine s /\
  clear_approot w s' = callback None s'.
Proof.
  intros Hd Ht s'.
  destruct (clear_approot_settled w s Hd Ht) as (v & stored & Hv & He & _ & Hs & Hi).
  fold s' in He, Hs.
  assert (Hv' : version (engine s') = Some v) by now rewrite He.
  split; [exists v, stored; repeat split; assumption|].
  split; [exact He|].
  unfold clear_approot at 1. rewrite Hd, Hs, Hv'.
  fold (build_identity v). rewrite Hi, String.eqb_refl. reflexivity.
Qed.

Lemma clear_approot_idempotent_witness :
  clear_approot (Examples.box ∅ true None None None)
    (after (clear_approot (Examples.box ∅ true None None None)
              (Examples.versioned "0123456" "0a1b2c3")))
  = callback None
      (after (clear_approot (Examples.box ∅ true None None None)
                (Examples.versioned "0123456" "0a1b2c3"))).
Proof.
  exact (proj2 (proj2
           (clear_approot_idempotent (Examples.box ∅ true None None None)
              (Examples.versioned "0123456" "0a1b2c3") eq_refl eq_refl))).
Defined.

(** *** Parts of the boot *)

Lemma succeed_all_app (a b : list (string * Stage)) (s : Sys) :
  succeed_all (a ++ b) s =
  match succeed_all a s with
  | Some s1 => succeed_all b s1
  | None => None
  end.
Proof.
  revert s. induction a as [|[n f] a IH]; intros s; [reflexivity|].
  cbn [app succeed_all]. destruct (threw (f s)); [reflexivity|].
  destruct (calls (f s)) as [|[e|] [|? ?]]; try reflexivity. apply IH.
Qed.

(** A boot that succeeds has passed through every stage: the state before
    the stage at position [i] and the one after it are on the way. *)
Lemma succeed_all_through (pre post : list (string * Stage)) (n : string)
      (f : Stage) (s s' : Sys) :
  succeed_all (pre ++ (n, f) :: post) s = Some s' ->
  exists s1,
    succeed_all pre s = Some s1 /\
    threw (f s1) = false /\
    hd_error (calls (f s1)) = Some None /\
    succeed_all post (after (f s1)) = Some s'.
Proof.
  rewrite succeed_all_app. destruct (succeed_all pre s) as [s1|]; [|discriminate].
  cbn [succeed_all]. intros H. exists s1.
  destruct (threw (f s1)); [discriminate|].
  destruct (calls (f s1)) as [|[e|] [|? ?]]; try discriminate.
  repeat split. exact H.
Qed.

Ltac frame_stage :=
  cbn [snd]; unfold_stage; unfold_io; simpl_state;
  repeat break_match; simpl_state; use_state_equations; simpl_state.

(** The stages after [clear_approot] neither set [this.version] nor store
    a version. *)
Lemma later_stages_keep_version (w : World) (v : option Version)
      (c : option jsval) :
  Forall (fun nf => forall s,
            version (engine s) = v /\ engine_config s !! "version" = c ->
            version (engine (after (snd nf s))) = v /\
            engine_config (after (snd nf s)) !! "version" = c)
         (skipn 8 (stages w)).
Proof.
  unfold stages. cbn [skipn].
  repeat (apply List.Forall_cons;
          [intros s [H1 H2]; frame_stage; split; assumption|]).
  apply List.Forall_nil.
Qed.

(** X6.  The version the server starts with.  After a boot in which every
    stage returned and called back once without an error, outside debug
    mode the stored version, trimmed, is the build identity of
    [this.version]; in debug mode it is the decimal form of
    [Math.floor(Math.random() * 89999) + 10000], an integer of
    [10000, 99999) that is the floor of the exact product plus 10000, or
    one more when the double product was rounded up to the next integer.
    No stage after [clear_approot] changes either of them, so this is the
    version the [NotFound] handler compares with. *)
Theorem boot_version_invariant (w : World) (s s' : Sys) :
  succeed_all (stages w) s = Some s' ->
  (debug_in_argv w = false ->
   exists v stored,
     version (engine s') = Some v /\
     or_empty (config_get "version" s') = Some stored /\
     trim stored = build_identity v) /\
  (debug_in_argv w = true -> unit_double_ok (Math_random w) = true ->
   let n := floor_mul (Math_random w) (99999 - 10000) + 10000 in
   config_get "version" s' = Some (JStr (string_of_Z n)) /\
   10000 <= n < 99999 /\
   exact_floor_mul (Math_random w) 89999 + 10000 <= n
     <= exact_floor_mul (Math_random w) 89999 + 10001 /\
   (forall m j,
      0 <= j -> mant (Math_random w) = m * 2 ^ j -> m * 89999 < 2 ^ 53 ->
      n = exact_floor_mul (Math_random w) 89999 + 10000)).
Proof.
  intros Hall.
  change (stages w) with
    (firstn 7 (stages w) ++ ("clear_approot", clear_approot w)
       :: skipn 8 (stages w))%list in Hall.
  apply succeed_all_through in Hall as (s1 & _ & Ht & Hc & Hpost).
  pose proof (later_stages_keep_version w
                (version (engine (after (clear_approot w s1))))
                (engine_config (after (clear_approot w s1)) !! "version"))
    as Hframe.
  pose proof (succeed_all_preserves _ _ Hframe _ _ Hpost (conj eq_refl eq_refl))
    as [Hv Hcfg].
  split.
  - intros Hd.
    destruct (clear_approot_settled w s1 Hd Ht)
      as (v & stored & Hv1 & He & _ & Hs & Hi).
    exists v, stored. unfold config_get in *. rewrite Hv, Hcfg, He.
    repeat split; assumption.
  - intros Hd Hrnd n. subst n. change (99999 - 10000) with 89999.
    pose proof (floor_mul_range _ Hrnd) as Hrange.
    pose proof (floor_mul_near_exact _ Hrnd) as [Hnear Hexact].
    split; [|split; [lia | split; [lia|]]].
    + unfold config_get. rewrite Hcfg. unfold clear_approot. rewrite Hd.
      cbn [callback after]. apply config_get_set.
    + intros m j Hj Hm Hsmall. rewrite (Hexact m j Hj Hm Hsmall). reflexivity.
Qed.

Lemma boot_version_invariant_witness :
  (exists stored,
     or_empty (config_get "version"
                 (final (series (stages (Examples.box ∅ true None None None))
                           (Examples.fresh ∅ ∅)))) = Some stored /\
     trim stored = "0a1b2c3") /\
  config_get "version"
    (final (series (stages (Examples.box Examples.debug_args true None None None))
              (Examples.fresh ∅ ∅))) = Some (JStr "54999").
Proof.
  split.
  - assert (Hall : succeed_all (stages (Examples.box ∅ true None None None))
                     (Examples.fresh ∅ ∅)
                   = Some (final (series (stages (Examples.box ∅ true None None None))
                                    (Examples.fresh ∅ ∅))))
      by (vm_compute; reflexivity).
    destruct (proj1 (boot_version_invariant _ _ _ Hall) eq_refl)
      as (v & stored & Hv & Hs & Hi).
    exists stored. split; [exact Hs|]. rewrite Hi.
    assert (Hv' : version (engine (final (series (stages (Examples.box ∅ true None None None))
                                            (Examples.fresh ∅ ∅))))
                  = Some {| hash := "0a1b2c3"; number := ""; debug := false;
                            vtype := Some "dev" |})
      by (vm_compute; reflexivity).
    rewrite Hv' in Hv. injection Hv as <-. reflexivity.
  - assert (Hall : succeed_all
                     (stages (Examples.box Examples.debug_args true None None None))
                     (Examples.fresh ∅ ∅)
                   = Some (final (series
                                    (stages (Examples.box Examples.debug_args true
                                               None None None))
                                    (Examples.fresh ∅ ∅))))
      by (vm_compute; reflexivity).
    destruct (proj2 (boot_version_invariant _ _ _ Hall) eq_refl eq_refl)
      as (Hv & _ & _ & Hexact).
    rewrite Hv, (Hexact 1 52 ltac:(lia) eq_refl eq_refl). reflexivity.
Defined.

(** *** Obsolete driver settings *)

(** X8.  [g2_shim] always calls back without an error and leaves the
    engine, the engine configuration and the disk alone.  When the driver
    configuration has none of the obsolete entries the stage does nothing
    at all; when it has at least one, the stage asks for the whole list to
    be deleted and then for the configuration to be restored, in that
    order. *)
Theorem g2_shim_obsolete (w : World) (s : Sys) :
  calls (g2_shim w s) = [None] /\ threw (g2_shim w s) = false /\
  engine (after (g2_shim w s)) = engine s /\
  engine_config (after (g2_shim w s)) = engine_config s /\
  files (after (g2_shim w s)) = files s /\
  ((forall e, In e g2_shim_entries -> driver_has w e = false) ->
   after (g2_shim w s) = s) /\
  ((exists e, In e g2_shim_entries /\ driver_has w e = true) ->
   trace (after (g2_shim w s)) =
   (trace s ++ [DriverConfigDeleteMany g2_shim_entries; DriverConfigRestore])%list).
Proof.
  unfold g2_shim.
  destruct (existsb (driver_has w) g2_shim_entries) eqn:E;
    cbn [callback calls threw after emit engine engine_config files trace];
    repeat split.
  - intros Hnone. apply existsb_exists in E as (e & Hin & He).
    rewrite (Hnone e Hin) in He. discriminate.
  - intros _. now rewrite <- app_assoc.
  - intros (e & Hin & He).
    assert (existsb (driver_has w) g2_shim_entries = true)
      by (apply existsb_exists; eauto).
    congruence.
Qed.

Lemma g2_shim_obsolete_witness :
  after (g2_shim (Examples.box ∅ true None None None) (Examples.fresh ∅ ∅))
  = Examples.fresh ∅ ∅.
Proof.
  refine (proj1 (proj2 (proj2 (proj2 (proj2 (proj2
            (g2_shim_obsolete (Examples.box ∅ true None None None)
               (Examples.fresh ∅ ∅))))))) _).
  intros e _. reflexivity.
Defined.

(** *** Following the 404 redirect *)

(** Every URL is the join of its slash-free segments. *)
Lemma split_segments (url : string) :
  exists x segs,
    split "/" url = x :: segs /\
    Forall no_slash (x :: segs) /\
    path_of (x :: segs) = url.
Proof.
  induction url as [|c r (x & segs & Hs & Hf & Hp)].
  - exists "", []. repeat split. repeat constructor.
  - cbn [split]. rewrite Hs. destruct (Ascii.eqb c "/") eqn:E.
    + apply Ascii.eqb_eq in E. subst c. exists "", (x :: segs).
      repeat split.
      * constructor; [reflexivity | exact Hf].
      * change (path_of ("" :: x :: segs)) with (String "/" (path_of (x :: segs))).
        now rewrite Hp.
    + exists (String c x), segs. repeat split.
      * inversion Hf; subst. constructor; [|assumption].
        unfold no_slash in *. cbn [all_chars]. now rewrite E.
      * rewrite <- Hp. now destruct segs.
Qed.

(** X7.  The redirect of the 404 handler is followed at most once more.
    When the stored version is a string without a slash, every unmatched
    URL is redirected either to [/] at once, or to a URL which, if it is
    unmatched too, is redirected to [/]: a repaired URL is never repaired
    again. *)
Theorem NotFound_settles (cfg : gmap string jsval) (v url : string) :
  cfg !! "version" = Some (JStr v) ->
  no_slash v ->
  exists location,
    NotFound cfg url = Redirect location /\
    (location = "/" \/ NotFound cfg location = Redirect "/").
Proof.
  intros Hv Hns.
  destruct (split_segments url) as (x & segs & Hs & Hf & _).
  assert (Hback : forall rest,
            Forall no_slash rest ->
            NotFound cfg (path_of (x :: v :: rest)) = Redirect "/").
  { intros rest Hr. unfold NotFound.
    rewrite split_path_of
      by (constructor; [now inversion Hf | constructor; assumption]).
    cbn [nth_error]. rewrite Hv. cbn [strict_ne].
    now rewrite String.eqb_refl. }
  unfold NotFound at 1. rewrite Hs, Hv.
  destruct segs as [|seg rest]; cbn [nth_error strict_ne].
  - eexists. split; [reflexivity|]. right. apply (Hback []). constructor.
  - destruct (String.eqb seg v) eqn:E; cbn [negb].
    + eexists. split; [reflexivity|]. now left.
    + eexists. split; [reflexivity|]. right. apply (Hback rest).
      inversion Hf as [|? ? _ Hf']; subst. now inversion Hf'.
Qed.

Lemma NotFound_settles_witness :
  exists location,
    NotFound {["version" := JStr "ABC"]} "/XYZ/app/foo" = Redirect location /\
    (location = "/" \/
     NotFound {["version" := JStr "ABC"]} location = Redirect "/").
Proof.
  apply (NotFound_settles {["version" := JStr "ABC"]} "ABC" "/XYZ/app/foo");
    reflexivity.
Defined.

(** *** The secret key, from one boot to the next *)

Lemma generate_auth_key_on_disk (w : World) (s : Sys) :
  write_fails w (secret_file w) = None ->
  length (randomBytes w 256) = 256%nat ->
  exists key,
    auth_secret (engine (after (generate_auth_key w s))) = Some key /\
    String.length key = 512%nat /\
    files (after (generate_auth_key w s)) !! secret_file w = Some key.
Proof.
  intros Hw Hrnd.
  destruct (secret_on_disk w s) as [data|] eqn:Hd;
    [destruct (Nat.eq_dec (String.length data) 512%nat) as [Hlen|Hlen]|].
  - rewrite (generate_auth_key_reuse w s data Hd Hlen).
    exists data. cbn [callback after with_engine engine files emit
                      set_auth_secret auth_secret].
    repeat split; [assumption|].
    unfold secret_on_disk in Hd.
    now destruct (read_fails w (secret_file w)).
  - rewrite (generate_auth_key_fresh w s) by (intros d' Hd'; congruence).
    exists (hex (randomBytes w 256)). cbn [callback after].
    rewrite writeFile_engine. repeat split.
    + now rewrite hex_length, Hrnd.
    + unfold writeFile. rewrite Hw. cbn. apply lookup_insert_eq.
  - rewrite (generate_auth_key_fresh w s) by (intros d' Hd'; congruence).
    exists (hex (randomBytes w 256)). cbn [callback after].
    rewrite writeFile_engine. repeat split.
    + now rewrite hex_length, Hrnd.
    + unfold writeFile. rewrite Hw. cbn. apply lookup_insert_eq.
Qed.

(** X9.  The secret survives a restart.  When [generate_auth_key] could
    write (or had nothing to write), a later run of the stage, in any
    world that has the same data directory and can read the file, adopts
    the very same key, writes nothing and leaves the disk as it is. *)
Theorem generate_auth_key_stable (w w' : World) (s : Sys) :
  write_fails w (secret_file w) = None ->
  length (randomBytes w 256) = 256%nat ->
  getDataDir w' = getDataDir w ->
  read_fails w' (secret_file w') = None ->
  let s1 := after (generate_auth_key w s) in
  let s2 := after (generate_auth_key w' s1) in
  auth_secret (engine s2) = auth_secret (engine s1) /\
  files s2 = files s1 /\
  count is_WriteFile (trace s2) = count is_WriteFile (trace s1).
Proof.
  intros Hw Hrnd Hdir Hr s1 s2.
  destruct (generate_auth_key_on_disk w s Hw Hrnd) as (key & Ha & Hlen & Hf).
  fold s1 in Ha, Hf.
  assert (Hfile : secret_file w' = secret_file w)
    by (unfold secret_file; now rewrite Hdir).
  assert (Hd : secret_on_disk w' s1 = Some key)
    by (unfold secret_on_disk; now rewrite Hr, Hfile).
  subst s2. rewrite (generate_auth_key_reuse w' s1 key Hd Hlen).
  cbn [callback after with_engine engine files trace emit
       set_auth_secret auth_secret].
  repeat split; [now rewrite Ha|].
  rewrite count_app. cbn. lia.
Qed.

Lemma generate_auth_key_stable_witness :
  auth_secret
    (engine (after (generate_auth_key (Examples.box Examples.debug_args false None None None)
                      (after (generate_auth_key (Examples.box ∅ true None None None)
                                (Examples.fresh ∅ ∅))))))
  = auth_secret
      (engine (after (generate_auth_key (Examples.box ∅ true None None None)
                        (Examples.fresh ∅ ∅)))).
Proof.
  exact (proj1 (generate_auth_key_stable
                  (Examples.box ∅ true None None None)
                  (Examples.box Examples.debug_args false None None None)
                  (Examples.fresh ∅ ∅) eq_refl eq_refl eq_refl eq_refl)).
Defined.

(** *** The server *)

(** ['debug' in argv && argv.debug === 'slow'] is [argv.debug === 'slow']. *)
Lemma slow_in_argv (w : World) :
  debug_in_argv w && bool_decide (argv w !! "debug" = Some (JStr "slow"))
  = bool_decide (argv w !! "debug" = Some (JStr "slow")).
Proof.
  unfold debug_in_argv. case_bool_decide as H.
  - now rewrite H.
  - apply andb_false_r.
Qed.

Lemma start_server_with_secret (w : World) (s : Sys) (key : string) :
  auth_secret (engine s) = Some key ->
  calls (start_server w s) = [None] /\ threw (start_server w s) = false /\
  auth_secret (engine (after (start_server w s))) = Some key /\
  trace (after (start_server w s)) =
  (trace s
   ++ (if bool_decide (argv w !! "debug" = Some (JStr "slow"))
       then [LogWarn "Configuring deliberate latency for testing..."]
       else [])
   ++ [SocketIoListen; LoadRoutes;
       ServerListen (config_get "server_port" s);
       AuthenticationConfigure])%list /\
  exists sv,
    server (engine (after (start_server w s))) = Some sv /\
    cookieSecret sv = Some key /\
    hd_error (middleware sv) = Some "crossOrigin" /\
    (In "latency" (middleware sv) <->
     argv w !! "debug" = Some (JStr "slow")) /\
    (In "debug" (middleware sv) <-> debug_in_argv w = true).
Proof.
  intros Hk. unfold start_server. rewrite !slow_in_argv.
  destruct (bool_decide (argv w !! "debug" = Some (JStr "slow"))) eqn:Hs;
    simpl_state; rewrite Hk;
    cbn [callback calls threw after]; simpl_state;
    (split; [reflexivity|]); (split; [reflexivity|]); (split; [exact Hk|]);
    (split; [cbn [app]; rewrite <- !app_assoc; reflexivity|]);
    (eexists; split; [reflexivity|]); cbn [cookieSecret middleware];
    (split; [reflexivity|]); (split; [reflexivity|]).
  - apply bool_decide_eq_true in Hs. unfold debug_in_argv. rewrite Hs.
    cbn. split; split; intros H; auto.
  - apply bool_decide_eq_false in Hs. unfold debug_in_argv.
    destruct (argv w !! "debug") as [a|]; cbn;
      split; split; intros H; try reflexivity; try discriminate;
      intuition (try discriminate; auto).
Qed.

(** X11.  [start_server].  In every case the stage first logs the latency
    warning when [argv.debug] is ['slow'].  Without a secret it then throws
    before the server listens: nothing else is asked of any collaborator
    and the callback is not invoked.  With a secret it calls back once
    without an error; the server's cookie secret is that secret;
    [crossOrigin] is the first middleware; the latency middleware is
    installed exactly when [argv.debug] is ['slow'] and the request logger
    exactly when [debug] is in [argv]; and the server listens on the
    configured port only after the routes are loaded. *)
Theorem start_server_assembly (w : World) (s : Sys) :
  (auth_secret (engine s) = None ->
   threw (start_server w s) = true /\ calls (start_server w s) = [] /\
   trace (after (start_server w s)) =
   (trace s
    ++ (if bool_decide (argv w !! "debug" = Some (JStr "slow"))
        then [LogWarn "Configuring deliberate latency for testing..."]
        else []))%list) /\
  (forall key,
     auth_secret (engine s) = Some key ->
     calls (start_server w s) = [None] /\ threw (start_server w s) = false /\
     auth_secret (engine (after (start_server w s))) = Some key /\
     trace (after (start_server w s)) =
     (trace s
      ++ (if bool_decide (argv w !! "debug" = Some (JStr "slow"))
          then [LogWarn "Configuring deliberate latency for testing..."]
          else [])
      ++ [SocketIoListen; LoadRoutes;
          ServerListen (config_get "server_port" s);
          AuthenticationConfigure])%list /\
     exists sv,
       server (engine (after (start_server w s))) = Some sv /\
       cookieSecret sv = Some key /\
       hd_error (middleware sv) = Some "crossOrigin" /\
       (In "latency" (middleware sv) <->
        argv w !! "debug" = Some (JStr "slow")) /\
       (In "debug" (middleware sv) <-> debug_in_argv w = true)).
Proof.
  split.
  - intros Hk. unfold start_server. rewrite !slow_in_argv.
    destruct (bool_decide (argv w !! "debug" = Some (JStr "slow")));
      simpl_state; rewrite Hk;
      cbn [throw threw calls after with_engine trace emit];
      repeat split; now rewrite ?app_nil_r.
  - intros key Hk. now apply start_server_with_secret.
Qed.

Lemma start_server_assembly_witness :
  threw (start_server (Examples.box ∅ true None None None) (Examples.fresh ∅ ∅))
  = true /\
  trace (after (start_server (Examples.box Examples.slow_args true None None None)
                  (Examples.with_secret Examples.stored_key)))
  = [LogWarn "Configuring deliberate latency for testing...";
     SocketIoListen; LoadRoutes; ServerListen None; AuthenticationConfigure].
Proof.
  split.
  - exact (proj1 (proj1 (start_server_assembly (Examples.box ∅ true None None None)
                           (Examples.fresh ∅ ∅)) eq_refl)).
  - destruct (proj2 (start_server_assembly
                       (Examples.box Examples.slow_args true None None None)
                       (Examples.with_secret Examples.stored_key))
                Examples.stored_key eq_refl)
      as (_ & _ & _ & Ht & _).
    rewrite Ht. reflexivity.
Defined.

(** X10.  The session secret of a booted server.  After a boot in which
    every stage returned and called back once without an error, the engine
    holds a secret of 512 characters and the server's cookie secret is that
    secret. *)
Theorem boot_cookie_secret (w : World) (s s' : Sys) :
  succeed_all (stages w) s = Some s' ->
  length (randomBytes w 256) = 256%nat ->
  exists key sv,
    auth_secret (engine s') = Some key /\
    String.length key = 512%nat /\
    server (engine s') = Some sv /\
    cookieSecret sv = Some key.
Proof.
  intros Hall Hrnd.
  change (stages w) with
    (firstn 27 (stages w) ++ ("generate_auth_key", generate_auth_key w)
       :: [("start_server", start_server w)])%list in Hall.
  apply succeed_all_through in Hall as (s1 & _ & _ & _ & Hpost).
  assert (Hkey : exists key,
             auth_secret (engine (after (generate_auth_key w s1))) = Some key /\
             String.length key = 512%nat).
  { destruct (secret_on_disk w s1) as [data|] eqn:Hd;
      [destruct (Nat.eq_dec (String.length data) 512%nat) as [Hlen|Hlen]|].
    - rewrite (generate_auth_key_reuse w s1 data Hd Hlen). now exists data.
    - rewrite (generate_auth_key_fresh w s1) by (intros d' Hd'; congruence).
      exists (hex (randomBytes w 256)). cbn [callback after].
      rewrite writeFile_engine. split; [reflexivity|].
      now rewrite hex_length, Hrnd.
    - rewrite (generate_auth_key_fresh w s1) by (intros d' Hd'; congruence).
      exists (hex (randomBytes w 256)). cbn [callback after].
      rewrite writeFile_engine. split; [reflexivity|].
      now rewrite hex_length, Hrnd. }
  destruct Hkey as (key & Ha & Hlen).
  cbn [succeed_all] in Hpost.
  destruct (start_server_with_secret w (after (generate_auth_key w s1)) key Ha)
    as (Hc & Ht & Ha' & _ & sv & Hsv & Hcs & _).
  rewrite Ht, Hc in Hpost. injection Hpost as <-.
  exists key, sv. repeat split; assumption.
Qed.

Lemma boot_cookie_secret_witness :
  exists key sv,
    auth_secret (engine (final (series (stages (Examples.box ∅ true None None None))
                                  (Examples.fresh ∅ ∅)))) = Some key /\
    String.length key = 512%nat /\
    server (engine (final (series (stages (Examples.box ∅ true None None None))
                             (Examples.fresh ∅ ∅)))) = Some sv /\
    cookieSecret sv = Some key.
Proof.
  refine (boot_cookie_secret (Examples.box ∅ true None None None)
            (Examples.fresh ∅ ∅) _ _ _).
  - vm_compute. reflexivity.
  - reflexivity.
Defined.

(** *** Firmware information *)

(** With the hardware disconnected no stage writes [this.firmware]. *)
Lemma stages_keep_firmware (w : World) (fw : Firmware) :
  isConnected (machine_machine w) = false ->
  Forall (fun nf => forall s,
            firmware (engine s) = fw /\
            (machine (engine s) = None \/
             machine (engine s) = Some (machine_machine w)) ->
            firmware (engine (after (snd nf s))) = fw /\
            (machine (engine (after (snd nf s))) = None \/
             machine (engine (after (snd nf s))) = Some (machine_machine w)))
         (stages w).
Proof.
  intros Hconn. unfold stages.
  repeat (apply List.Forall_cons;
          [intros s [Hf Hm]; cbn [snd]; unfold_stage; unfold_io;
           (destruct Hm as [Hm|Hm]; rewrite ?Hm, ?Hconn; simpl_state;
            repeat break_match; simpl_state; use_state_equations;
            cbn [firmware machine set_version set_machine set_firmware
                 set_auth_secret set_server];
            rewrite ?Hm; split; auto)
          |]).
  apply List.Forall_nil.
Qed.

(** X12.  Firmware information without hardware.  When the machine handle
    reports no connection, no run of [start], whether it succeeds, fails,
    stalls or throws, changes [this.firmware]: on a new engine it stays
    all [null]. *)
Theorem disconnected_boot_keeps_firmware (w : World) (cb : bool) (s : Sys) :
  isConnected (machine_machine w) = false ->
  machine (engine s) = None \/ machine (engine s) = Some (machine_machine w) ->
  firmware (engine (end_state (start w cb s))) = firmware (engine s).
Proof.
  intros Hconn Hm.
  pose proof (series_preserves _ _
                (stages_keep_firmware w (firmware (engine s)) Hconn) s
                (conj eq_refl Hm)) as [Hf _].
  unfold start. revert Hf. generalize (series (stages w) s) as r.
  intros r Hf. destruct (ending r) as [[e|]| | |[e|]]; exact Hf.
Qed.

Lemma disconnected_boot_keeps_firmware_witness :
  firmware (engine (end_state (start (Examples.box ∅ false None None None) true
                                 (Examples.fresh ∅ ∅))))
  = firmware (engine (Examples.fresh ∅ ∅)).
Proof.
  exact (disconnected_boot_keeps_firmware (Examples.box ∅ false None None None)
           true (Examples.fresh ∅ ∅) eq_refl (or_introl eq_refl)).
Defined.

(** Whatever the connection, [this.machine] is unset or is the handle of
    the [machine] module. *)
Lemma stages_keep_machine (w : World) :
  Forall (fun nf => forall s,
            (machine (engine s) = None \/
             machine (engine s) = Some (machine_machine w)) ->
            (machine (engine (after (snd nf s))) = None \/
             machine (engine (after (snd nf s))) = Some (machine_machine w)))
         (stages w).
Proof.
  unfold stages.
  repeat (apply List.Forall_cons;
          [intros s Hm; cbn [snd]; unfold_stage; unfold_io;
           (destruct Hm as [Hm|Hm]; rewrite ?Hm; simpl_state;
            repeat break_match; simpl_state; use_state_equations;
            cbn [firmware machine set_version set_machine set_firmware
                 set_auth_secret set_server];
            rewrite ?Hm; auto)
          |]).
  apply List.Forall_nil.
Qed.

(** The stages after [get_g2_version] do not write [this.firmware]. *)
Lemma later_stages_keep_firmware (w : World) (fw : Firmware) :
  Forall (fun nf => forall s,
            firmware (engine s) = fw ->
            firmware (engine (after (snd nf s))) = fw)
         (skipn 18 (stages w)).
Proof.
  unfold stages. cbn [skipn].
  repeat (apply List.Forall_cons;
          [intros s Hf; frame_stage;
           cbn [firmware set_version set_machine set_firmware
                set_auth_secret set_server]; assumption|]).
  apply List.Forall_nil.
Qed.

(** When the driver answers the firmware query with an error, no stage
    writes [this.firmware]. *)
Lemma stages_keep_firmware_on_error (w : World) (fw : Firmware) (e : Err) :
  driver_get w = inl e ->
  Forall (fun nf => forall s,
            firmware (engine s) = fw ->
            firmware (engine (after (snd nf s))) = fw)
         (stages w).
Proof.
  intros Hget. unfold stages.
  repeat (apply List.Forall_cons;
          [intros s Hf; cbn [snd]; unfold_stage; unfold_io; rewrite ?Hget;
           simpl_state; repeat break_match; simpl_state; use_state_equations;
           cbn [firmware set_version set_machine set_firmware
                set_auth_secret set_server]; assumption|]).
  apply List.Forall_nil.
Qed.

(** X13.  Firmware information with hardware.  After a boot in which every
    stage succeeded, with the hardware connected: when the driver answered
    the query for [fb], [fbs] and [fbc], the engine's firmware build,
    version and configuration are the first, second and third value of the
    answer (missing values stay undefined); when the driver reported an
    error, the firmware information is what it was before the boot. *)
Theorem connected_boot_firmware (w : World) (s s' : Sys) :
  succeed_all (stages w) s = Some s' ->
  isConnected (machine_machine w) = true ->
  machine (engine s) = None \/ machine (engine s) = Some (machine_machine w) ->
  (forall value,
     driver_get w = inr value ->
     firmware (engine s') =
     {| fw_build := nth_error value 0;
        fw_config := nth_error value 2;
        fw_version := nth_error value 1 |}) /\
  (forall e,
     driver_get w = inl e ->
     firmware (engine s') = firmware (engine s)).
Proof.
  intros Hall Hconn Hm. split.
  - intros value Hget.
    change (stages w) with
      (firstn 17 (stages w) ++ ("get_g2_version", get_g2_version w)
         :: skipn 18 (stages w))%list in Hall.
    apply succeed_all_through in Hall as (s1 & Hpre & Ht & _ & Hpost).
    assert (Hm1 : machine (engine s1) = None \/
                  machine (engine s1) = Some (machine_machine w)).
    { pose proof (stages_keep_machine w) as Hk.
      change (stages w) with
        (firstn 17 (stages w) ++ skipn 17 (stages w))%list in Hk.
      apply List.Forall_app in Hk as [Hk _].
      exact (succeed_all_preserves _ _ Hk _ _ Hpre Hm). }
    apply (succeed_all_preserves _ _ (later_stages_keep_firmware w _) _ _ Hpost).
    revert Ht. unfold get_g2_version, machine_isConnected.
    destruct Hm1 as [-> | ->]; [discriminate|].
    rewrite Hconn, Hget. reflexivity.
  - intros e Hget.
    exact (succeed_all_preserves _ _
             (stages_keep_firmware_on_error w (firmware (engine s)) e Hget)
             _ _ Hall eq_refl).
Qed.

Lemma connected_boot_firmware_witness :
  firmware (engine (final (series (stages (Examples.box ∅ true None None None))
                             (Examples.fresh ∅ ∅))))
  = {| fw_build := Some "101.03"; fw_config := Some "cfg";
       fw_version := Some "0.99" |}.
Proof.
  refine (proj1 (connected_boot_firmware (Examples.box ∅ true None None None)
                   (Examples.fresh ∅ ∅) _ _ eq_refl (or_introl eq_refl))
            ["101.03"; "0.99"; "cfg"] eq_refl).
  vm_compute. reflexivity.
Defined.

End EngineProps.

(** ** More of the dashboard *)

Module DashboardProps.
Import JS Dashboard DashboardSpec.

Lemma hasClass_addClass_other (c c' : string) (d : Dashboard) :
  c' <> c -> hasClass c' (addClass c d) = hasClass c' d.
Proof.
  intros Hne. unfold addClass. destruct (hasClass c d); [reflexivity|].
  unfold hasClass. cbn [with_main_classes main_classes].
  rewrite existsb_app. cbn [existsb].
  apply String.eqb_neq in Hne. now rewrite Hne, !orb_false_r.
Qed.

Lemma hasClass_removeClass_other (c c' : string) (d : Dashboard) :
  c' <> c -> hasClass c' (removeClass c d) = hasClass c' d.
Proof.
  intros Hne. unfold hasClass, removeClass.
  cbn [with_main_classes main_classes].
  induction (main_classes d) as [|x l IH]; [reflexivity|].
  cbn [List.filter existsb]. destruct (String.eqb c x) eqn:E; cbn [negb].
  - apply String.eqb_eq in E. subst x.
    apply String.eqb_neq in Hne. now rewrite Hne, IH.
  - cbn [existsb]. now rewrite IH.
Qed.

Lemma removeClass_frame (c : string) (d : Dashboard) :
  machine (removeClass c d) = machine d /\
  ui (removeClass c d) = ui d /\
  trace (removeClass c d) = trace d.
Proof. repeat split. Qed.

(** What [openRightMenu] and [closeRightMenu] leave of the page and of the
    dashboard, whether they return or throw. *)
Lemma openRightMenu_page (d : Dashboard) :
  main_classes (result (openRightMenu d)) = main_classes (addClass panel d) /\
  machine (result (openRightMenu d)) = machine d /\
  ui (result (openRightMenu d)) = ui d /\
  posts (result (openRightMenu d)) = posts d.
Proof.
  unfold openRightMenu. fold panel.
  destruct (addClass_frame panel d) as (Em & Eu & _ & Et).
  rewrite Em. unfold posts.
  destruct (machine d); [destruct (ui (addClass panel d)) eqn:E|];
    cbn [ret raise result emit main_classes machine ui trace];
    rewrite ?List.filter_app, ?Et; cbn [List.filter is_PostMessage];
    rewrite ?app_nil_r; repeat split; congruence.
Qed.

Lemma closeRightMenu_page (d : Dashboard) :
  main_classes (result (closeRightMenu d)) = main_classes (removeClass panel d) /\
  machine (result (closeRightMenu d)) = machine d /\
  ui (result (closeRightMenu d)) = ui d /\
  posts (result (closeRightMenu d)) = posts d.
Proof.
  unfold closeRightMenu. fold panel. unfold posts.
  destruct (removeClass_frame panel d) as (Em & Eu & Et).
  rewrite Em.
  destruct (machine d); [destruct (ui (removeClass panel d)) eqn:E|];
    cbn [ret raise result emit main_classes machine ui trace];
    rewrite ?List.filter_app, ?Et; cbn [List.filter is_PostMessage];
    rewrite ?app_nil_r; repeat split; congruence.
Qed.

Lemma hasClass_main_classes (c : string) (d d' : Dashboard) :
  main_classes d = main_classes d' -> hasClass c d = hasClass c d'.
Proof. unfold hasClass. now intros ->. Qed.

(** X15.  [bindRightMenu] toggles the panel.  After the call [#main] has
    the panel class exactly when it did not have it before, so two calls
    in a row bring the panel back to where it was; no other class of
    [#main] is gained or lost, and the machine handle and [ui] are left
    alone.  This holds even when the call throws. *)
Theorem bindRightMenu_toggles (d : Dashboard) :
  let d' := result (bindRightMenu d) in
  hasClass panel d' = negb (hasClass panel d) /\
  hasClass panel (result (bindRightMenu d')) = hasClass panel d /\
  (forall c, c <> panel -> hasClass c d' = hasClass c d) /\
  machine d' = machine d /\ ui d' = ui d.
Proof.
  assert (Hflip : forall x,
            hasClass panel (result (bindRightMenu x)) = negb (hasClass panel x)).
  { intros x. unfold bindRightMenu. fold panel.
    destruct (hasClass panel x) eqn:E; cbn [negb].
    - apply closeRightMenu_closes.
    - apply openRightMenu_opens. }
  intros d'. subst d'. split; [apply Hflip|]. split.
  - rewrite !Hflip. apply negb_involutive.
  - unfold bindRightMenu. fold panel.
    destruct (hasClass panel d).
    + destruct (closeRightMenu_page d) as (Hc & Hm & Hu & _).
      repeat split; try assumption. intros c Hne.
      rewrite (hasClass_main_classes c _ _ Hc).
      now apply hasClass_removeClass_other.
    + destruct (openRightMenu_page d) as (Hc & Hm & Hu & _).
      repeat split; try assumption. intros c Hne.
      rewrite (hasClass_main_classes c _ _ Hc).
      now apply hasClass_addClass_other.
Qed.

(** X16.  Opening and closing.  [openRightMenu] never duplicates the
    panel class: on a page that already has it the class list is
    unchanged.  [closeRightMenu] removes every occurrence of it.  Neither
    touches another class, so opening and then closing leaves the panel
    closed and closing and then opening leaves it open. *)
Theorem open_close_classes (d : Dashboard) :
  (hasClass panel d = true ->
   main_classes (result (openRightMenu d)) = main_classes d) /\
  ~ In panel (main_classes (result (closeRightMenu d))) /\
  (forall c, c <> panel ->
     hasClass c (result (openRightMenu d)) = hasClass c d /\
     hasClass c (result (closeRightMenu d)) = hasClass c d) /\
  hasClass panel (result (closeRightMenu (result (openRightMenu d)))) = false /\
  hasClass panel (result (openRightMenu (result (closeRightMenu d)))) = true.
Proof.
  destruct (openRightMenu_page d) as (Ho & _).
  destruct (closeRightMenu_page d) as (Hc & _).
  split; [|split; [|split; [|split]]].
  - intros H. rewrite Ho. unfold addClass. now rewrite H.
  - rewrite Hc. unfold removeClass. cbn [with_main_classes main_classes].
    intros Hin. apply List.filter_In in Hin as [_ Hin].
    now rewrite String.eqb_refl in Hin.
  - intros c Hne. split.
    + rewrite (hasClass_main_classes c _ _ Ho).
      now apply hasClass_addClass_other.
    + rewrite (hasClass_main_classes c _ _ Hc).
      now apply hasClass_removeClass_other.
  - apply closeRightMenu_closes.
  - apply openRightMenu_opens.
Qed.

Lemma open_close_classes_witness :
  main_classes
    (result (openRightMenu (new_Dashboard ["row"; "offcanvas-overlap-left"])))
  = ["row"; "offcanvas-overlap-left"].
Proof.
  exact (proj1 (open_close_classes
                  (new_Dashboard ["row"; "offcanvas-overlap-left"])) eq_refl).
Defined.

(** X17.  The relay answers nobody but the asker.  Handling a message
    either posts nothing, or posts exactly one message, to the frame the
    message came from; the latter only for a message whose [getMachine] is
    [true], that carries no job and no boolean [showDRO], while a machine
    handle is set.  In particular a job submission is never answered. *)
Theorem on_message_posts (add_job_err : option string) (e : MessageEvent)
        (d : Dashboard) :
  posts (result (on_message add_job_err e d)) = posts d \/
  (getMachine (data e) = Some (JBool true) /\
   job (data e) = None /\
   (forall b, showDRO (data e) <> Some (JBool b)) /\
   machine d <> None /\
   exists msg,
     posts (result (on_message add_job_err e d)) =
     (posts d ++ [PostMessage (source e) msg "*"])%list).
Proof.
  unfold on_message.
  case_bool_decide as Ht; [left; apply openRightMenu_page|].
  case_bool_decide as Hf; [left; apply closeRightMenu_page|].
  destruct (job (data e)) as [j|] eqn:Hj.
  - left. destruct (machine d); [|reflexivity].
    destruct add_job_err; unfold posts, jobManager;
      cbn [ret result emit trace]; rewrite !List.filter_app;
      cbn [List.filter is_PostMessage]; now rewrite !app_nil_r.
  - case_bool_decide as Hg; [|now left].
    destruct (machine d) as [m|] eqn:Hm.
    + right. split; [exact Hg|]. split; [reflexivity|].
      split; [intros [|]; assumption|]. split; [discriminate|].
      eexists. unfold posts. cbn [ret result emit trace].
      rewrite !List.filter_app. cbn [List.filter is_PostMessage].
      now rewrite app_nil_r.
    + left. unfold posts. cbn [raise result emit trace].
      rewrite List.filter_app. cbn [List.filter is_PostMessage].
      now rewrite app_nil_r.
Qed.

(** X18.  How the relay picks the action.  A boolean [showDRO] decides
    alone: whatever else the message carries, whoever sent it, the panel
    is opened or closed and nothing more.  Without a boolean [showDRO], a
    job decides alone: the outcome does not depend on [getMachine] or on
    the sender.  A message with neither, and whose [getMachine] is not
    [true], is ignored: the dashboard is left exactly as it was. *)
Theorem on_message_dispatch (err : option string) (e : MessageEvent)
        (d : Dashboard) :
  (forall b err' e',
     showDRO (data e) = Some (JBool b) ->
     showDRO (data e') = Some (JBool b) ->
     on_message err e d = on_message err' e' d /\
     on_message err e d = if b then openRightMenu d else closeRightMenu d) /\
  (forall j e',
     (forall b, showDRO (data e) <> Some (JBool b)) ->
     (forall b, showDRO (data e') <> Some (JBool b)) ->
     job (data e) = Some j -> job (data e') = Some j ->
     on_message err e d = on_message err e' d) /\
  ((forall b, showDRO (data e) <> Some (JBool b)) ->
   job (data e) = None ->
   getMachine (data e) <> Some (JBool true) ->
   on_message err e d = ret d).
Proof.
  split; [|split].
  - intros b err' e' H H'. unfold on_message. rewrite H, H'.
    destruct b.
    + rewrite !bool_decide_eq_true_2 by reflexivity. now split.
    + rewrite !(bool_decide_eq_false_2 (Some (JBool false) = Some (JBool true)))
        by discriminate.
      rewrite !bool_decide_eq_true_2 by reflexivity. now split.
  - intros j e' H H' Hj Hj'. unfold on_message.
    rewrite (bool_decide_eq_false_2 _ (H true)),
      (bool_decide_eq_false_2 _ (H false)),
      (bool_decide_eq_false_2 _ (H' true)),
      (bool_decide_eq_false_2 _ (H' false)).
    now rewrite Hj, Hj'.
  - intros H Hj Hg. unfold on_message.
    rewrite (bool_decide_eq_false_2 _ (H true)),
      (bool_decide_eq_false_2 _ (H false)), Hj.
    now rewrite (bool_decide_eq_false_2 _ Hg).
Qed.

Lemma on_message_dispatch_witness :
  on_message None
    {| source := 3%nat;
       data := {| showDRO := Some (JBool true); job := Some (JStr "G0 X1");
                  getMachine := Some (JBool true) |} |}
    (new_Dashboard [])
  = openRightMenu (new_Dashboard []).
Proof.
  exact (proj2 (proj1 (on_message_dispatch None
                         {| source := 3%nat;
                            data := {| showDRO := Some (JBool true);
                                       job := Some (JStr "G0 X1");
                                       getMachine := Some (JBool true) |} |}
                         (new_Dashboard []))
                  true None
                  {| source := 3%nat;
                     data := {| showDRO := Some (JBool true);
                                job := Some (JStr "G0 X1");
                                getMachine := Some (JBool true) |} |}
                  eq_refl eq_refl)).
Defined.

(** X19.  [keypad].  Without a machine handle the call only raises the
    warning toast.  With a machine handle and a [ui], the panel is toggled
    exactly when the keypad is available and [test] is true; otherwise
    the error toast is raised and the page is left alone.  So a call with
    [test] false, as the click handler makes it, never moves the panel. *)
Theorem keypad_guard (test : bool) (d : Dashboard) :
  (machine d = None ->
   keypad test d =
   ret (emit (Toastr "warning" "Please Connect to a tool") d)) /\
  (forall m u,
     machine d = Some m -> ui d = Some u ->
     (statusKeypad u && test = true ->
      keypad test d = bindRightMenu d /\
      hasClass panel (result (keypad test d)) = negb (hasClass panel d)) /\
     (statusKeypad u && test = false ->
      keypad test d = ret (emit (Toastr "error" "KeyPad Unvailable") d))) /\
  main_classes (result (keypad false d)) = main_classes d.
Proof.
  split; [|split].
  - intros Hm. unfold keypad. now rewrite Hm.
  - intros m u Hm Hu. unfold keypad. rewrite Hm, Hu. split; intros ->.
    + split; [reflexivity|]. unfold bindRightMenu. fold panel.
      destruct (hasClass panel d) eqn:E; cbn [negb].
      * apply closeRightMenu_closes.
      * apply openRightMenu_opens.
    + reflexivity.
  - unfold keypad. destruct (machine d); [destruct (ui d)|];
      rewrite ?andb_false_r; reflexivity.
Qed.

Lemma keypad_guard_witness :
  keypad true (new_Dashboard []) =
  ret (emit (Toastr "warning" "Please Connect to a tool") (new_Dashboard [])).
Proof.
  exact (proj1 (keypad_guard true (new_Dashboard [])) eq_refl).
Defined.

End DashboardProps.
